(** * OpenManusWeb: the processing-session controller of connected_interface.js

    A shallow embedding of class [App] of
    [app/web/static/connected_interface.js]: the two controller fields
    ([sessionId], [isProcessing]), the three DOM elements the handlers write
    to, and the handlers [handleSendMessage], [handleWebSocketMessage] and
    [stopProcessing], together with the click listener of the stop button.

    The handlers are written in a small state-and-exception monad.  Every
    observable action of a handler (an assignment to a controller field, a
    write to a DOM property, a console line, a network request, a call of a
    collaborator manager, a timer) is appended to a chronological trace, so
    that "how often" and "in which order" are statements about that trace. *)

From Stdlib Require Import String Ascii List ZArith QArith Bool Arith Lia.
Import ListNotations.
Close Scope Q_scope.
Open Scope string_scope.
Open Scope list_scope.

Set Warnings "-register-all".

(** ** JavaScript values *)

(** The values the controller handles: what [JSON.parse] produces, plus
    [undefined] (the value of a missing property).  Numbers are the finite
    ones, kept as rationals. *)
Inductive JsVal : Type :=
| JUndefined
| JNull
| JBool (b : bool)
| JNum (q : Q)
| JStr (s : string)
| JArr (items : list JsVal)
| JObj (fields : list (string * JsVal)).

(** ToBoolean, the test of [if (v)], [!v] and [v && ...]. *)
Definition truthy (v : JsVal) : bool :=
  match v with
  | JUndefined | JNull => false
  | JBool b => b
  | JNum q => negb (Qnum q =? 0)%Z
  | JStr s => negb (s =? "")
  | JArr _ | JObj _ => true
  end.

(** [v == null]: the value is [null] or [undefined]. *)
Definition nullish (v : JsVal) : bool :=
  match v with
  | JUndefined | JNull => true
  | _ => false
  end.

(** Property lookup in an object literal; a missing property reads as
    [undefined]. *)
Fixpoint lookup (name : string) (fields : list (string * JsVal)) : JsVal :=
  match fields with
  | [] => JUndefined
  | (k, v) :: rest => if k =? name then v else lookup name rest
  end.

(** ** Network outcomes *)

(** What [await response.json()] yields: a rejection (body is not JSON) or
    the parsed value. *)
Inductive JsonOutcome : Type :=
| JsonRejects (message : string)
| JsonValue (data : JsVal).

Module Response.
(** The fields of a fetch [Response] the controller reads. *)
Record t : Type := mk {
  ok : bool;
  status : Z;
  json : JsonOutcome
}.
End Response.

(** What [await fetch(...)] yields: a rejection (transport fault) carrying
    the message of the error, or a response. *)
Inductive FetchOutcome : Type :=
| FetchRejects (message : string)
| FetchResolves (response : Response.t).

(** The two requests the modelled handlers issue. *)
Inductive Request : Type :=
| PostChat (prompt : string)      (* POST /api/chat, body {prompt: message} *)
| PostStop (session : JsVal).     (* POST /api/chat/${sessionId}/stop *)

(** ** Inbound events *)

(** The payload handed to [handleWebSocketMessage], typed as the data model
    of the streaming channel has it.  [None] is a field that is absent (or
    [null]); a sequence field that is present is an array. *)
Record InboundEvent : Type := {
  status : option string;
  result : option JsVal;
  thinking_steps : option (list JsVal);
  terminal_output : option (list string);
  system_logs : option (list string);
  chat_logs : option (list JsVal)
}.

(** ** Observable actions *)

Inductive Button : Type := send_btn | stop_btn.

Inductive Effect : Type :=
| SetIsProcessing (b : bool)               (* this.isProcessing = b *)
| SetSessionId (v : JsVal)                 (* this.sessionId = v *)
| SetDisabled (btn : Button) (b : bool)    (* getElementById(btn).disabled = b *)
| SetStatusText (s : string)               (* status-indicator.textContent = s *)
| ConsoleLog (args : list JsVal)
| ConsoleError (args : list JsVal)
| Fetch (r : Request)
| AddUserMessage (message : string)        (* chatManager.addUserMessage *)
| AddSystemMessage (message : string)      (* chatManager.addSystemMessage *)
| AddAIMessage (content : JsVal)           (* chatManager.addAIMessage *)
| Connect (session : JsVal)                (* websocketManager.connect *)
| ClearThinking                            (* thinkingManager.clearThinking *)
| AddThinkingSteps (steps : list JsVal)    (* thinkingManager.addThinkingSteps *)
| SetTimeoutLoadWorkspaceFiles (delay : Z). (* setTimeout(() => loadWorkspaceFiles(), delay) *)

(** Calls of the collaborator managers (chat history, streaming channel,
    thinking timeline). *)
Definition is_collaborator_call (e : Effect) : bool :=
  match e with
  | AddUserMessage _ | AddSystemMessage _ | AddAIMessage _
  | Connect _ | ClearThinking | AddThinkingSteps _ => true
  | _ => false
  end.

Definition is_chat_call (e : Effect) : bool :=
  match e with
  | AddUserMessage _ | AddSystemMessage _ | AddAIMessage _ => true
  | _ => false
  end.

Definition is_thinking_call (e : Effect) : bool :=
  match e with
  | ClearThinking | AddThinkingSteps _ => true
  | _ => false
  end.

Definition is_system_message (e : Effect) : bool :=
  match e with AddSystemMessage _ => true | _ => false end.

Definition is_ai_message (e : Effect) : bool :=
  match e with AddAIMessage _ => true | _ => false end.

Definition is_fetch (e : Effect) : bool :=
  match e with Fetch _ => true | _ => false end.

Definition is_processing_write (e : Effect) : bool :=
  match e with SetIsProcessing _ => true | _ => false end.

(** ** Controller state *)

(** The two fields of [App] (constructor, lines 14-15). *)
Record App : Type := {
  sessionId : JsVal;
  isProcessing : bool
}.

(** The properties of the page the handlers write: [disabled] of the send
    and stop buttons, [textContent] of the status indicator.  The three
    elements are assumed to exist in the page. *)
Record Dom : Type := {
  send_btn_disabled : bool;
  stop_btn_disabled : bool;
  status_indicator_text : string
}.

(** [clock k] is what the [k]-th call of [Date.now()] returns (milliseconds);
    [ticks] counts the calls made so far. *)
Record World : Type := {
  app : App;
  dom : Dom;
  clock : nat -> Z;
  ticks : nat;
  trace : list Effect
}.

Definition initial_app : App := {| sessionId := JNull; isProcessing := false |}.

Definition initial_world (page : Dom) (now : nat -> Z) : World :=
  {| app := initial_app; dom := page; clock := now; ticks := 0; trace := [] |}.

(** ** The handler monad: state plus exceptions *)

Inductive Outcome (A : Type) : Type :=
| Normal (a : A)
| Throws (message : string).
Arguments Normal {A} a.
Arguments Throws {A} message.

Definition M (A : Type) : Type := World -> Outcome A * World.

Definition ret {A} (a : A) : M A := fun w => (Normal a, w).

Definition bind {A B} (m : M A) (k : A -> M B) : M B :=
  fun w =>
    match m w with
    | (Normal a, w') => k a w'
    | (Throws msg, w') => (Throws msg, w')
    end.

Definition throw {A} (message : string) : M A := fun w => (Throws message, w).

(** [try { body } catch (error) { handler(error.message) }]. *)
Definition try_catch (body : M unit) (handler : string -> M unit) : M unit :=
  fun w =>
    match body w with
    | (Normal a, w') => (Normal a, w')
    | (Throws msg, w') => handler msg w'
    end.

Notation "x <- m ;; k" := (bind m (fun x => k))
  (at level 61, m at next level, right associativity).
Notation "m ;; k" := (bind m (fun _ => k))
  (at level 61, right associativity).

Definition emit (e : Effect) : M unit :=
  fun '(Build_World a d now k tr) =>
    (Normal tt, Build_World a d now k (tr ++ [e])).

Definition with_app (f : App -> App) : World -> World :=
  fun '(Build_World a d now k tr) => Build_World (f a) d now k tr.

Definition with_dom (f : Dom -> Dom) : World -> World :=
  fun '(Build_World a d now k tr) => Build_World a (f d) now k tr.

Definition get_isProcessing : M bool := fun w => (Normal (isProcessing (app w)), w).
Definition get_sessionId : M JsVal := fun w => (Normal (sessionId (app w)), w).

Definition set_isProcessing (b : bool) : M unit :=
  fun w => emit (SetIsProcessing b)
             (with_app (fun '(Build_App sid _) => Build_App sid b) w).

Definition set_sessionId (v : JsVal) : M unit :=
  fun w => emit (SetSessionId v)
             (with_app (fun '(Build_App _ busy) => Build_App v busy) w).

Definition set_disabled (btn : Button) (b : bool) : M unit :=
  fun w => emit (SetDisabled btn b)
             (with_dom (fun '(Build_Dom send stop text) =>
                match btn with
                | send_btn => Build_Dom b stop text
                | stop_btn => Build_Dom send b text
                end) w).

Definition set_status_text (s : string) : M unit :=
  fun w => emit (SetStatusText s)
             (with_dom (fun '(Build_Dom send stop _) => Build_Dom send stop s) w).

(** [Date.now()]. *)
Definition date_now : M Z :=
  fun '(Build_World a d now k tr) => (Normal (now k), Build_World a d now (S k) tr).

(** [array.map(f)] for a callback with effects: elements in index order. *)
Fixpoint map_M {A B} (f : A -> M B) (l : list A) : M (list B) :=
  match l with
  | [] => ret []
  | x :: rest => y <- f x ;; ys <- map_M f rest ;; ret (y :: ys)
  end.

(** [when c body]: [if (c) { body }]. *)
Definition when (c : bool) (body : M unit) : M unit :=
  if c then body else ret tt.

(** The state a handler leaves behind, whether it returned or threw. *)
Definition exec {A} (m : M A) (w : World) : World := snd (m w).

(** The part of the trace of [w'] that was appended after [w]. *)
Definition new_effects (w w' : World) : list Effect :=
  skipn (length (trace w)) (trace w').

(** ** Concrete data for the worked runs *)

(** A localisation function that keeps the key and the [message]
    parameter. *)
Definition sample_t (key : string) (params : list (string * JsVal)) : string :=
  match lookup "message" params with
  | JStr m => String.append key (String.append ": " m)
  | _ => key
  end.

Definition sample_type_error (v : JsVal) (name : string) : string :=
  String.append "Cannot read properties of null, reading " name.

(** The page as served: send enabled, stop disabled, no status text. *)
Definition sample_page : Dom :=
  {| send_btn_disabled := false; stop_btn_disabled := true;
     status_indicator_text := "" |}.

(** A clock that advances by one second from one reading to the next. *)
Definition ticking_clock (k : nat) : Z := (1000 * Z.of_nat k)%Z.

(** A clock that stands still. *)
Definition frozen_clock (k : nat) : Z := 5000%Z.

Definition fresh_world : World := initial_world sample_page ticking_clock.

(** A controller in the middle of session "s1". *)
Definition active_world : World :=
  {| app := {| sessionId := JStr "s1"; isProcessing := true |};
     dom := {| send_btn_disabled := true; stop_btn_disabled := false;
               status_indicator_text := "processing_request" |};
     clock := ticking_clock; ticks := 0; trace := [] |}.

Definition event_status_result (s : string) (r : JsVal) : InboundEvent :=
  {| status := Some s; result := Some r; thinking_steps := None;
     terminal_output := None; system_logs := None; chat_logs := None |}.

Definition event_logs (steps : option (list JsVal)) (logs : list string)
  : InboundEvent :=
  {| status := None; result := None; thinking_steps := steps;
     terminal_output := None; system_logs := Some logs; chat_logs := None |}.

Definition created (sid : string) : FetchOutcome :=
  FetchResolves (Response.mk true 200 (JsonValue (JObj [("session_id", JStr sid)]))).

Definition server_error : FetchOutcome :=
  FetchResolves (Response.mk false 500 (JsonValue (JObj [("detail", JStr "boom")]))).

(** ** Handlers outside the session state machine

    [loadWorkspaceFiles] and [handleFileClick] read and write neither the
    controller fields nor the page: all they do is issue a request and call
    a collaborator.  They run in a monad whose state is the log of what
    they did. *)

Inductive FileEffect : Type :=
| FetchUrl (url : string)                  (* fetch(url), a GET *)
| UpdateWorkspaces (workspaces : JsVal)    (* workspaceManager.updateWorkspaces *)
| ShowFile (name content : JsVal).         (* fileViewerManager.showFile *)

(** An action of the session handlers (left) or of the file handlers. *)
Definition PageEffect : Type := (Effect + FileEffect)%type.

Module Files.
Definition F (A : Type) : Type := list PageEffect -> Outcome A * list PageEffect.

Definition ret {A} (a : A) : F A := fun log => (Normal a, log).

Definition bind {A B} (m : F A) (k : A -> F B) : F B :=
  fun log =>
    match m log with
    | (Normal a, log') => k a log'
    | (Throws msg, log') => (Throws msg, log')
    end.

Definition throw {A} (message : string) : F A := fun log => (Throws message, log).

Definition try_catch (body : F unit) (handler : string -> F unit) : F unit :=
  fun log =>
    match body log with
    | (Normal a, log') => (Normal a, log')
    | (Throws msg, log') => handler msg log'
    end.

Definition emit (e : PageEffect) : F unit := fun log => (Normal tt, log ++ [e]).

Definition when (c : bool) (body : F unit) : F unit :=
  if c then body else ret tt.

Definition await_fetch (o : FetchOutcome) : F Response.t :=
  match o with
  | FetchRejects message => throw message
  | FetchResolves response => ret response
  end.

Definition await_json (response : Response.t) : F JsVal :=
  match Response.json response with
  | JsonRejects message => throw message
  | JsonValue data => ret data
  end.

(** Everything a handler did, started on an empty log. *)
Definition effects (m : F unit) : list PageEffect := snd (m []).
End Files.

Declare Scope files_scope.
Delimit Scope files_scope with files.
Notation "x <- m ;; k" := (Files.bind m (fun x => k))
  (at level 61, m at next level, right associativity) : files_scope.
Notation "m ;; k" := (Files.bind m (fun _ => k))
  (at level 61, right associativity) : files_scope.

Definition is_file_fetch (e : PageEffect) : bool :=
  match e with inr (FetchUrl _) => true | _ => false end.

Definition is_workspace_call (e : PageEffect) : bool :=
  match e with inr (UpdateWorkspaces _) => true | _ => false end.

Definition is_viewer_call (e : PageEffect) : bool :=
  match e with inr (ShowFile _ _) => true | _ => false end.

(** Calls of any collaborator manager. *)
Definition is_manager_call (e : PageEffect) : bool :=
  match e with
  | inl e' => is_collaborator_call e'
  | inr (UpdateWorkspaces _) | inr (ShowFile _ _) => true
  | inr (FetchUrl _) => false
  end.

(** *** encodeURIComponent

    Strings are kept as the bytes of their UTF-8 encoding, which is what
    [encodeURIComponent] escapes for a well-formed string: every byte
    except those of [A-Z a-z 0-9 - _ . ! ~ * ' ( )] becomes [%XX] with
    upper-case hexadecimal digits. *)

Definition in_range (lo hi : nat) (c : ascii) : bool :=
  (lo <=? nat_of_ascii c)%nat && (nat_of_ascii c <=? hi)%nat.

Definition is_digit (c : ascii) : bool := in_range 48 57 c.

Definition uri_unreserved (c : ascii) : bool :=
  in_range 65 90 c || in_range 97 122 c || is_digit c
  || existsb (Ascii.eqb c) (list_ascii_of_string "-_.!~*'()").

(** The hexadecimal digit of the nibble [b0 + 2 b1 + 4 b2 + 8 b3]. *)
Definition hex_digit (b0 b1 b2 b3 : bool) : ascii :=
  match b3, b2, b1, b0 with
  | false, false, false, false => "0"
  | false, false, false, true => "1"
  | false, false, true, false => "2"
  | false, false, true, true => "3"
  | false, true, false, false => "4"
  | false, true, false, true => "5"
  | false, true, true, false => "6"
  | false, true, true, true => "7"
  | true, false, false, false => "8"
  | true, false, false, true => "9"
  | true, false, true, false => "A"
  | true, false, true, true => "B"
  | true, true, false, false => "C"
  | true, true, false, true => "D"
  | true, true, true, false => "E"
  | true, true, true, true => "F"
  end%char.

Definition percent_encode (c : ascii) : string :=
  let 'Ascii b0 b1 b2 b3 b4 b5 b6 b7 := c in
  String "%" (String (hex_digit b4 b5 b6 b7) (String (hex_digit b0 b1 b2 b3) "")).

Fixpoint encodeURIComponent (s : string) : string :=
  match s with
  | EmptyString => EmptyString
  | String c rest =>
      if uri_unreserved c then String c (encodeURIComponent rest)
      else String.append (percent_encode c) (encodeURIComponent rest)
  end.

(** The characters an escaped component is made of. *)
Definition uri_component_char (c : ascii) : bool :=
  uri_unreserved c || Ascii.eqb c "%".

(** *** String tests of updateDynamicTexts *)

(** [hay.includes(needle)]; on UTF-8 bytes as on UTF-16 code units for
    well-formed strings. *)
Fixpoint includes (hay needle : string) : bool :=
  String.prefix needle hay
  || match hay with
     | EmptyString => false
     | String _ rest => includes rest needle
     end.

(** The longest run of digits at the start of [s]. *)
Fixpoint leading_digits (s : string) : string :=
  match s with
  | EmptyString => EmptyString
  | String c rest => if is_digit c then String c (leading_digits rest) else EmptyString
  end.

(** [s.match(/\d+/)]: the leftmost longest run of digits, [None] for
    [null]. *)
Fixpoint match_digits (s : string) : option string :=
  match s with
  | EmptyString => None
  | String c rest =>
      if is_digit c then Some (String c (leading_digits rest)) else match_digits rest
  end.

Definition all_digits (s : string) : bool :=
  forallb is_digit (list_ascii_of_string s).

Definition no_digits (s : string) : bool :=
  forallb (fun c => negb (is_digit c)) (list_ascii_of_string s).

Definition starts_with_digit (s : string) : bool :=
  match s with
  | EmptyString => false
  | String c _ => is_digit c
  end.

(** The page as [updateDynamicTexts] sees it: the elements of [Dom] and the
    [textContent] of the record counter and of the refresh countdown. *)
Record Page : Type := {
  controls : Dom;
  record_count_text : string;
  refresh_countdown_text : string
}.

(** A localisation function for the Chinese locale, as far as the status
    indicator goes. *)
Definition chinese_t (key : string) (params : list (string * JsVal)) : string :=
  if key =? "processing_request" then "正在处理您的请求..."
  else if key =? "processing_stopped" then "处理已停止"
  else sample_t key params.

(** [parseInt] on the texts of the worked runs. *)
Definition sample_parseInt (s : string) : option JsVal :=
  if s =? "3 records" then Some (JNum (3 # 1)%Q) else None.

Definition files_listing : FetchOutcome :=
  FetchResolves
    (Response.mk true 200
       (JsonValue (JObj [("workspaces", JObj [("default", JArr [JStr "a.txt"])])]))).

Definition file_body : FetchOutcome :=
  FetchResolves
    (Response.mk true 200
       (JsonValue (JObj [("name", JStr "a b.txt"); ("content", JStr "hello")]))).

(** An event that carries a non-terminal status and empty sequences. *)
Definition heartbeat : InboundEvent :=
  {| status := Some "running"; result := None; thinking_steps := Some [];
     terminal_output := None; system_logs := Some []; chat_logs := None |}.

(** A progress event with a result and with both logged fields. *)
Definition progress_event : InboundEvent :=
  {| status := Some "running"; result := Some (JStr "partial");
     thinking_steps := None; terminal_output := Some ["$ ls"];
     system_logs := None; chat_logs := Some [JStr "hi"] |}.

(** A page with an English status label and nothing to parse. *)
Definition english_page : Page :=
  {| controls := {| send_btn_disabled := true; stop_btn_disabled := false;
                    status_indicator_text := "Processing your request..." |};
     record_count_text := "n/a";
     refresh_countdown_text := "soon" |}.

Definition countdown_page : Page :=
  {| controls := sample_page;
     record_count_text := "n/a";
     refresh_countdown_text := "refresh in 15s" |}.

(** ** Further classes of actions and states *)

Definition is_state_write (e : Effect) : bool :=
  match e with
  | SetIsProcessing _ | SetSessionId _ | SetDisabled _ _ | SetStatusText _ => true
  | _ => false
  end.

Definition is_session_write (e : Effect) : bool :=
  match e with SetSessionId _ => true | _ => false end.

Definition is_console (e : Effect) : bool :=
  match e with ConsoleLog _ | ConsoleError _ => true | _ => false end.

Definition is_timer (e : Effect) : bool :=
  match e with SetTimeoutLoadWorkspaceFiles _ => true | _ => false end.

Definition is_user_message_for (m : string) (e : Effect) : bool :=
  match e with AddUserMessage m' => m' =? m | _ => false end.

Definition is_create_request_for (m : string) (e : Effect) : bool :=
  match e with Fetch (PostChat m') => m' =? m | _ => false end.

Definition count {A} (p : A -> bool) (l : list A) : nat := length (filter p l).

(** The event without the two fields that are only logged. *)
Definition without_logged_fields (data : InboundEvent) : InboundEvent :=
  {| status := status data; result := result data;
     thinking_steps := thinking_steps data; terminal_output := None;
     system_logs := system_logs data; chat_logs := None |}.

(** The buttons say what [isProcessing] says: send is disabled exactly
    while processing, stop exactly while idle. *)
Definition buttons_mirror_processing (w : World) : Prop :=
  send_btn_disabled (dom w) = isProcessing (app w)
  /\ stop_btn_disabled (dom w) = negb (isProcessing (app w)).

(** ** The handlers of class App *)

Section Controller.

(** [t(key, params)] of [/static/i18n.js], the localisation function: the
    module is imported by the controller and not part of it. *)
Variable t : string -> list (string * JsVal) -> string.

(** The message of the [TypeError] the engine raises when a property is
    read from [null] or [undefined]; its wording depends on the engine. *)
Variable type_error_message : JsVal -> string -> string.

(** An [Error] object as the console receives it. *)
Definition error_object (message : string) : JsVal :=
  JObj [("message", JStr message)].

(** [await fetch(...)], resumed with the outcome of the request. *)
Definition await_fetch (o : FetchOutcome) : M Response.t :=
  match o with
  | FetchRejects message => throw message
  | FetchResolves response => ret response
  end.

(** [await response.json()]. *)
Definition await_json (response : Response.t) : M JsVal :=
  match Response.json response with
  | JsonRejects message => throw message
  | JsonValue data => ret data
  end.

(** [data.session_id]. *)
Definition read_session_id (data : JsVal) : M JsVal :=
  match data with
  | JObj fields => ret (lookup "session_id" fields)
  | JUndefined | JNull => throw (type_error_message data "session_id")
  | _ => ret JUndefined
  end.

(** *** handleSendMessage (lines 106-151)

    The function suspends at [await fetch(...)] and at
    [await response.json()].  It reads and writes no state between the two,
    so it is split at one point: [handleSendMessage_enter] runs up to the
    request being issued and says whether one was issued;
    [handleSendMessage_resume] is the rest, run when the request settles. *)
Definition handleSendMessage_enter (message : string) : M bool :=
  busy <- get_isProcessing ;;
  if busy then
    emit (ConsoleLog [JStr "正在处理中，请等待..."]) ;;
    ret false
  else
    set_isProcessing true ;;
    set_disabled send_btn true ;;
    set_disabled stop_btn false ;;
    set_status_text (t "processing_request" []) ;;
    emit (Fetch (PostChat message)) ;;
    ret true.

Definition handleSendMessage_catch (message : string) : M unit :=
  emit (ConsoleError [JStr (t "send_message_error" [("message", JStr message)]);
                      error_object message]) ;;
  emit (AddSystemMessage (t "error_occurred" [("message", JStr message)])) ;;
  set_isProcessing false ;;
  set_disabled send_btn false ;;
  set_disabled stop_btn true ;;
  set_status_text "".

Definition handleSendMessage_resume (message : string) (o : FetchOutcome) : M unit :=
  try_catch
    (response <- await_fetch o ;;
     when (negb (Response.ok response))
          (throw (t "api_error" [("status", JNum (inject_Z (Response.status response)))])) ;;
     data <- await_json response ;;
     sid <- read_session_id data ;;
     set_sessionId sid ;;
     emit (AddUserMessage message) ;;
     current <- get_sessionId ;;
     emit (Connect current) ;;
     emit ClearThinking)
    handleSendMessage_catch.

(** One call of [handleSendMessage] run to completion, with no other
    handler dispatched while its request is outstanding.  This is used only
    where that makes no difference: for a call that returns before the
    request (the guard of line 107) and for the [catch] block, which forces
    its state.  What holds after a successful request is stated on [step],
    where handlers interleave. *)
Definition handleSendMessage (message : string) (o : FetchOutcome) : M unit :=
  issued <- handleSendMessage_enter message ;;
  when issued (handleSendMessage_resume message o).

(** *** handleWebSocketMessage (lines 154-206) *)

(** The three terminal status values of line 157. *)
Definition is_terminal (s : string) : bool :=
  (s =? "completed") || (s =? "error") || (s =? "stopped").

(** [data.status] as a condition. *)
Definition status_truthy (data : InboundEvent) : bool :=
  match status data with
  | Some s => truthy (JStr s)
  | None => false
  end.

(** [data.status === s]. *)
Definition status_is (data : InboundEvent) (s : string) : bool :=
  match status data with
  | Some s' => s' =? s
  | None => false
  end.

(** [field && field.length > 0]. *)
Definition non_empty {A} (field : option (list A)) : bool :=
  match field with
  | Some (_ :: _) => true
  | _ => false
  end.

Definition elements {A} (field : option (list A)) : list A :=
  match field with
  | Some l => l
  | None => []
  end.

(** The object literal of lines 186-191, with [ms] the value of
    [Date.now()]. *)
Definition log_step (log : string) (ms : Z) : JsVal :=
  JObj [("message", JStr log);
        ("type", JStr "system_log");
        ("details", JNull);
        ("timestamp", JNum (ms # 1000)%Q)].

Definition handleWebSocketMessage (data : InboundEvent) : M unit :=
  when (status_truthy data)
       (when (status_is data "completed" || status_is data "error"
              || status_is data "stopped")
             (set_isProcessing false ;;
              set_disabled send_btn false ;;
              set_disabled stop_btn true ;;
              set_status_text "" ;;
              match result data with
              | Some r => when (truthy r) (emit (AddAIMessage r))
              | None => ret tt
              end)) ;;
  when (non_empty (thinking_steps data))
       (emit (AddThinkingSteps (elements (thinking_steps data)))) ;;
  when (non_empty (terminal_output data))
       (emit (ConsoleLog [JStr "收到终端输出:";
                          JArr (map JStr (elements (terminal_output data)))])) ;;
  when (non_empty (system_logs data))
       (emit (ConsoleLog [JStr "收到系统日志:";
                          JArr (map JStr (elements (system_logs data)))]) ;;
        logSteps <- map_M (fun log => ms <- date_now ;; ret (log_step log ms))
                          (elements (system_logs data)) ;;
        emit (AddThinkingSteps logSteps)) ;;
  when (non_empty (chat_logs data))
       (emit (ConsoleLog [JStr "收到聊天日志:"; JArr (elements (chat_logs data))])) ;;
  when (status_is data "completed")
       (emit (SetTimeoutLoadWorkspaceFiles 1000)).

(** *** stopProcessing (lines 209-232), split at [await fetch(...)] *)

Definition stopProcessing_enter : M bool :=
  sid <- get_sessionId ;;
  if negb (truthy sid) then ret false
  else
    emit (Fetch (PostStop sid)) ;;
    ret true.

Definition stopProcessing_catch (message : string) : M unit :=
  emit (ConsoleError [JStr (t "stop_processing_error" [("message", JStr message)]);
                      error_object message]) ;;
  emit (AddSystemMessage (t "error_occurred" [("message", JStr message)])).

Definition stopProcessing_resume (o : FetchOutcome) : M unit :=
  try_catch
    (response <- await_fetch o ;;
     when (negb (Response.ok response))
          (throw (t "api_error" [("status", JNum (inject_Z (Response.status response)))])) ;;
     emit (ConsoleLog [JStr "处理已停止"]) ;;
     emit (AddSystemMessage (t "processing_stopped" [])) ;;
     set_status_text (t "processing_stopped" []) ;;
     set_disabled send_btn false ;;
     set_disabled stop_btn true ;;
     set_isProcessing false)
    stopProcessing_catch.

(** One call of [stopProcessing] run to completion. *)
Definition stopProcessing (o : FetchOutcome) : M unit :=
  issued <- stopProcessing_enter ;;
  when issued (stopProcessing_resume o).

(** *** The click listener of the stop button (lines 50-54) *)

Definition stop_click_enter : M bool :=
  sid <- get_sessionId ;;
  busy <- get_isProcessing ;;
  if truthy sid && busy then stopProcessing_enter else ret false.

(** *** loadWorkspaceFiles (lines 235-248) and handleFileClick (lines 251-265)

    Both run to completion here: they touch no state, so what other
    handlers do while their request is outstanding does not matter to
    them. *)

(** [data.name] for a property [name] that only an object can carry. *)
Definition get_property (data : JsVal) (name : string) : Files.F JsVal :=
  match data with
  | JObj fields => Files.ret (lookup name fields)
  | JUndefined | JNull => Files.throw (type_error_message data name)
  | _ => Files.ret JUndefined
  end.

Definition api_error (response : Response.t) : string :=
  t "api_error" [("status", JNum (inject_Z (Response.status response)))].

Definition loadWorkspaceFiles (o : FetchOutcome) : Files.F unit :=
  (Files.try_catch
     (Files.emit (inr (FetchUrl "/api/files")) ;;
      response <- Files.await_fetch o ;;
      Files.when (negb (Response.ok response)) (Files.throw (api_error response)) ;;
      data <- Files.await_json response ;;
      workspaces <- get_property data "workspaces" ;;
      Files.emit (inr (UpdateWorkspaces workspaces)))
     (fun message =>
        Files.emit (inl (ConsoleError
                           [JStr (t "load_workspace_error" [("message", JStr message)]);
                            error_object message]))))%files.

(** The URL of line 253. *)
Definition file_url (filePath : string) : string :=
  String.append "/api/files/" (encodeURIComponent filePath).

Definition handleFileClick (filePath : string) (o : FetchOutcome) : Files.F unit :=
  (Files.try_catch
     (Files.emit (inr (FetchUrl (file_url filePath))) ;;
      response <- Files.await_fetch o ;;
      Files.when (negb (Response.ok response)) (Files.throw (api_error response)) ;;
      data <- Files.await_json response ;;
      name <- get_property data "name" ;;
      content <- get_property data "content" ;;
      Files.emit (inr (ShowFile name content)))
     (fun message =>
        Files.emit (inl (ConsoleError
                           [JStr (t "load_file_error" [("message", JStr message)]);
                            error_object message])) ;;
        Files.emit (inl (AddSystemMessage
                           (t "error_occurred" [("message", JStr message)])))))%files.

(** *** updateDynamicTexts (lines 81-103) *)

(** [parseInt(text)], [None] when the result is [NaN]. *)
Variable parseInt : string -> option JsVal.

Definition updateDynamicTexts (p : Page) : Page :=
  let status_text := status_indicator_text (controls p) in
  {| controls :=
       {| send_btn_disabled := send_btn_disabled (controls p);
          stop_btn_disabled := stop_btn_disabled (controls p);
          status_indicator_text :=
            if includes status_text "正在处理" then t "processing_request" []
            else if includes status_text "处理已停止" then t "processing_stopped" []
            else status_text |};
     record_count_text :=
       match parseInt (record_count_text p) with
       | Some count => t "records_count" [("count", count)]
       | None => record_count_text p
       end;
     refresh_countdown_text :=
       match match_digits (refresh_countdown_text p) with
       | Some seconds => t "refresh_countdown" [("seconds", JStr seconds)]
       | None => refresh_countdown_text p
       end |}.

(** ** The controller as an event-driven system

    Handlers run one at a time; a handler that awaits a request leaves the
    request in flight and its continuation runs when the request settles,
    with any number of other handlers dispatched in between. *)

Record Sys : Type := {
  world : World;
  creating : list string;   (* prompts of the create-session requests in flight *)
  stopping : nat            (* number of stop requests in flight *)
}.

Inductive Input : Type :=
| Submit (message : string)                   (* the chat manager calls handleSendMessage *)
| CreateSettles (k : nat) (o : FetchOutcome)  (* the k-th create-session request in flight settles *)
| StreamEvent (data : InboundEvent)           (* the websocket manager calls handleWebSocketMessage *)
| StopClick                                   (* click on the stop button *)
| StopSettles (o : FetchOutcome).             (* a stop request in flight settles *)

Definition remove_nth {A} (k : nat) (l : list A) : list A :=
  firstn k l ++ skipn (S k) l.

Definition step (s : Sys) (i : Input) : Sys :=
  match i with
  | Submit message =>
      match handleSendMessage_enter message (world s) with
      | (Normal true, w) =>
          {| world := w; creating := creating s ++ [message]; stopping := stopping s |}
      | (_, w) =>
          {| world := w; creating := creating s; stopping := stopping s |}
      end
  | CreateSettles k o =>
      match nth_error (creating s) k with
      | Some message =>
          {| world := exec (handleSendMessage_resume message o) (world s);
             creating := remove_nth k (creating s);
             stopping := stopping s |}
      | None => s
      end
  | StreamEvent data =>
      {| world := exec (handleWebSocketMessage data) (world s);
         creating := creating s; stopping := stopping s |}
  | StopClick =>
      match stop_click_enter (world s) with
      | (Normal true, w) =>
          {| world := w; creating := creating s; stopping := S (stopping s) |}
      | (_, w) =>
          {| world := w; creating := creating s; stopping := stopping s |}
      end
  | StopSettles o =>
      match stopping s with
      | O => s
      | S n =>
          {| world := exec (stopProcessing_resume o) (world s);
             creating := creating s; stopping := n |}
      end
  end.

Definition run (inputs : list Input) (s : Sys) : Sys := fold_left step inputs s.

(** The state right after [new App()]. *)
Definition initial_sys (page : Dom) (now : nat -> Z) : Sys :=
  {| world := initial_world page now; creating := []; stopping := 0 |}.

(** How a settled create-session request leaves the [try] block of
    [handleSendMessage]: by an exception (left, its message) or past
    line 132 (right, the value stored into [sessionId]). *)
Definition create_outcome (o : FetchOutcome) : string + JsVal :=
  match o with
  | FetchRejects message => inl message
  | FetchResolves response =>
      if Response.ok response then
        match Response.json response with
        | JsonRejects message => inl message
        | JsonValue (JObj fields) => inr (lookup "session_id" fields)
        | JsonValue JUndefined => inl (type_error_message JUndefined "session_id")
        | JsonValue JNull => inl (type_error_message JNull "session_id")
        | JsonValue _ => inr JUndefined
        end
      else inl (t "api_error" [("status", JNum (inject_Z (Response.status response)))])
  end.

(** The session identifier a settled create-session request hands to the
    controller, if it gets as far as line 132. *)
Definition returned_session_id (o : FetchOutcome) : option JsVal :=
  match o with
  | FetchRejects _ => None
  | FetchResolves response =>
      if Response.ok response then
        match Response.json response with
        | JsonRejects _ => None
        | JsonValue (JObj fields) => Some (lookup "session_id" fields)
        | JsonValue JUndefined | JsonValue JNull => None
        | JsonValue _ => Some JUndefined
        end
      else None
  end.

(** A create-session response is well formed when the identifier it
    carries is neither [null] nor [undefined]. *)
Definition well_formed_input (i : Input) : bool :=
  match i with
  | CreateSettles _ o =>
      match returned_session_id o with
      | Some sid => negb (nullish sid)
      | None => true
      end
  | _ => true
  end.

(** The reason a failed request leaves in [error.message]: the message of
    the transport fault, or the localised text for a non-success status. *)
Definition request_failure (o : FetchOutcome) : option string :=
  match o with
  | FetchRejects message => Some message
  | FetchResolves response =>
      if Response.ok response then None
      else Some (t "api_error" [("status", JNum (inject_Z (Response.status response)))])
  end.

(** An input that cannot store a session identifier: anything but a
    create-session request settling past line 132. *)
Definition creates_no_session (i : Input) : bool :=
  match i with
  | CreateSettles _ o =>
      match returned_session_id o with
      | Some _ => false
      | None => true
      end
  | _ => true
  end.

(** Every user message shown for prompt [m], and every request for [m]
    still in flight, is matched by a create-session request issued for
    [m]. *)
Definition user_messages_accounted (m : string) (s : Sys) : Prop :=
  count (is_user_message_for m) (trace (world s)) + count (String.eqb m) (creating s)
  <= count (is_create_request_for m) (trace (world s)).

(** ** What one dispatched event appends to the trace *)

Definition terminal_event (data : InboundEvent) : bool :=
  match status data with
  | Some s => is_terminal s
  | None => false
  end.

(** The steps of lines 185-192 for readings [now k], [now (k+1)], ... *)
Fixpoint stamped (logs : list string) (now : nat -> Z) (k : nat) : list JsVal :=
  match logs with
  | [] => []
  | log :: rest => log_step log (now k) :: stamped rest now (S k)
  end.

Definition status_effects (data : InboundEvent) : list Effect :=
  if terminal_event data then
    [SetIsProcessing false; SetDisabled send_btn false;
     SetDisabled stop_btn true; SetStatusText ""]
    ++ match result data with
       | Some r => if truthy r then [AddAIMessage r] else []
       | None => []
       end
  else [].

Definition thinking_effects (data : InboundEvent) : list Effect :=
  if non_empty (thinking_steps data)
  then [AddThinkingSteps (elements (thinking_steps data))] else [].

Definition terminal_output_effects (data : InboundEvent) : list Effect :=
  if non_empty (terminal_output data)
  then [ConsoleLog [JStr "收到终端输出:";
                    JArr (map JStr (elements (terminal_output data)))]]
  else [].

Definition system_logs_effects (data : InboundEvent) (now : nat -> Z) (k : nat)
  : list Effect :=
  if non_empty (system_logs data)
  then [ConsoleLog [JStr "收到系统日志:";
                    JArr (map JStr (elements (system_logs data)))];
        AddThinkingSteps (stamped (elements (system_logs data)) now k)]
  else [].

Definition chat_logs_effects (data : InboundEvent) : list Effect :=
  if non_empty (chat_logs data)
  then [ConsoleLog [JStr "收到聊天日志:"; JArr (elements (chat_logs data))]]
  else [].

Definition completed_effects (data : InboundEvent) : list Effect :=
  if status_is data "completed" then [SetTimeoutLoadWorkspaceFiles 1000] else [].

Definition event_effects (data : InboundEvent) (now : nat -> Z) (k : nat)
  : list Effect :=
  status_effects data ++ thinking_effects data ++ terminal_output_effects data
  ++ system_logs_effects data now k ++ chat_logs_effects data
  ++ completed_effects data.

(** Number of [Date.now()] readings one dispatch takes. *)
Definition event_readings (data : InboundEvent) : nat :=
  if non_empty (system_logs data) then length (elements (system_logs data)) else 0.

(** Two steps that agree except, for a step made from a log line, in the
    clock reading of its timestamp. *)
Inductive same_step_up_to_timestamp : JsVal -> JsVal -> Prop :=
| same_step_verbatim (v : JsVal) : same_step_up_to_timestamp v v
| same_step_log (log : string) (ms ms' : Z) :
    same_step_up_to_timestamp (log_step log ms) (log_step log ms').

Inductive same_call_up_to_timestamp : Effect -> Effect -> Prop :=
| same_call_verbatim (e : Effect) : same_call_up_to_timestamp e e
| same_call_steps (steps steps' : list JsVal) :
    Forall2 same_step_up_to_timestamp steps steps' ->
    same_call_up_to_timestamp (AddThinkingSteps steps) (AddThinkingSteps steps').

(** A settled stop request that takes the [try] block of [stopProcessing]
    to its end: the fetch resolved with a success status. *)
Definition stop_succeeds (o : FetchOutcome) : bool :=
  match o with
  | FetchRejects _ => false
  | FetchResolves response => Response.ok response
  end.

(** An input that cannot set [isProcessing] to false: anything but a
    terminal stream event (line 158), a stop request that succeeds
    (line 226) and a create-session request that fails (line 146). *)
Definition keeps_processing (i : Input) : bool :=
  match i with
  | StreamEvent data => negb (terminal_event data)
  | StopSettles o => negb (stop_succeeds o)
  | CreateSettles _ o =>
      match returned_session_id o with
      | Some _ => true
      | None => false
      end
  | Submit _ | StopClick => true
  end.

(** ** The state each handler leaves behind *)

(** [w] with [es] appended to its trace. *)
Definition appended (es : list Effect) : World -> World :=
  fun '(Build_World a d now k tr) => Build_World a d now k (tr ++ es).

(** The world after [handleWebSocketMessage data]. *)
Definition after_event (data : InboundEvent) (w : World) : World :=
  {| app := if terminal_event data
            then {| sessionId := sessionId (app w); isProcessing := false |}
            else app w;
     dom := if terminal_event data
            then {| send_btn_disabled := false; stop_btn_disabled := true;
                    status_indicator_text := "" |}
            else dom w;
     clock := clock w;
     ticks := ticks w + event_readings data;
     trace := trace w ++ event_effects data (clock w) (ticks w) |}.

(** The world after the first part of [handleSendMessage] when the
    controller was idle. *)
Definition after_submit_enter (message : string) (w : World) : World :=
  {| app := {| sessionId := sessionId (app w); isProcessing := true |};
     dom := {| send_btn_disabled := true; stop_btn_disabled := false;
               status_indicator_text := t "processing_request" [] |};
     clock := clock w; ticks := ticks w;
     trace := trace w ++ [SetIsProcessing true; SetDisabled send_btn true;
                          SetDisabled stop_btn false;
                          SetStatusText (t "processing_request" []);
                          Fetch (PostChat message)] |}.

(** The world after the [catch] block of [handleSendMessage]. *)
Definition after_create_failure (reason : string) (w : World) : World :=
  {| app := {| sessionId := sessionId (app w); isProcessing := false |};
     dom := {| send_btn_disabled := false; stop_btn_disabled := true;
               status_indicator_text := "" |};
     clock := clock w; ticks := ticks w;
     trace := trace w ++ [ConsoleError [JStr (t "send_message_error" [("message", JStr reason)]);
                                        error_object reason];
                          AddSystemMessage (t "error_occurred" [("message", JStr reason)]);
                          SetIsProcessing false; SetDisabled send_btn false;
                          SetDisabled stop_btn true; SetStatusText ""] |}.

(** The world after the [try] block of [handleSendMessage] ran through. *)
Definition after_create_success (message : string) (sid : JsVal) (w : World) : World :=
  {| app := {| sessionId := sid; isProcessing := isProcessing (app w) |};
     dom := dom w; clock := clock w; ticks := ticks w;
     trace := trace w ++ [SetSessionId sid; AddUserMessage message;
                          Connect sid; ClearThinking] |}.

Definition after_create (message : string) (o : FetchOutcome) (w : World) : World :=
  match create_outcome o with
  | inl reason => after_create_failure reason w
  | inr sid => after_create_success message sid w
  end.

(** The world after the [try] block of [stopProcessing] ran through. *)
Definition after_stop_success (w : World) : World :=
  {| app := {| sessionId := sessionId (app w); isProcessing := false |};
     dom := {| send_btn_disabled := false; stop_btn_disabled := true;
               status_indicator_text := t "processing_stopped" [] |};
     clock := clock w; ticks := ticks w;
     trace := trace w ++ [ConsoleLog [JStr "处理已停止"];
                          AddSystemMessage (t "processing_stopped" []);
                          SetStatusText (t "processing_stopped" []);
                          SetDisabled send_btn false; SetDisabled stop_btn true;
                          SetIsProcessing false] |}.

(** The effects of the [catch] block of [stopProcessing]. *)
Definition stop_failure_effects (reason : string) : list Effect :=
  [ConsoleError [JStr (t "stop_processing_error" [("message", JStr reason)]);
                 error_object reason];
   AddSystemMessage (t "error_occurred" [("message", JStr reason)])].

Definition after_stop (o : FetchOutcome) (w : World) : World :=
  match request_failure o with
  | Some reason => appended (stop_failure_effects reason) w
  | None => after_stop_success w
  end.

(** Property [name] of a step object. *)
Definition field (name : string) (v : JsVal) : JsVal :=
  match v with
  | JObj fields => lookup name fields
  | _ => JUndefined
  end.

(** The invariant of the controller: while processing, either a session
    identifier is stored or a create-session request is still in flight. *)
Definition session_known_or_pending (s : Sys) : Prop :=
  isProcessing (app (world s)) = true ->
  nullish (sessionId (app (world s))) = false \/ creating s <> [].

(** ** Running the handlers *)

Lemma new_effects_app (w w' : World) (es : list Effect) :
  trace w' = trace w ++ es -> new_effects w w' = es.
Proof.
  intros H. unfold new_effects. rewrite H.
  rewrite skipn_app, skipn_all, Nat.sub_diag. reflexivity.
Qed.

Lemma map_M_log_steps (logs : list string) (w : World) :
  map_M (fun log => ms <- date_now ;; ret (log_step log ms)) logs w
  = (Normal (stamped logs (clock w) (ticks w)),
     {| app := app w; dom := dom w; clock := clock w;
        ticks := ticks w + length logs; trace := trace w |}).
Proof.
  revert w. induction logs as [|log rest IH]; intros [a d now k tr].
  - simpl. unfold ret. rewrite Nat.add_0_r. reflexivity.
  - simpl. unfold bind at 1. unfold bind at 1. simpl. unfold ret at 1.
    unfold bind at 1. rewrite IH. simpl. unfold ret.
    rewrite <- Nat.add_succ_comm. reflexivity.
Qed.

Lemma terminal_guard (data : InboundEvent) :
  status_truthy data
  && (status_is data "completed" || status_is data "error" || status_is data "stopped")
  = terminal_event data.
Proof.
  unfold status_truthy, status_is, terminal_event, is_terminal.
  destruct (status data) as [s|]; [|reflexivity].
  destruct (s =? "completed") eqn:E1; [apply String.eqb_eq in E1; subst; reflexivity|].
  destruct (s =? "error") eqn:E2; [apply String.eqb_eq in E2; subst; reflexivity|].
  destruct (s =? "stopped") eqn:E3; [apply String.eqb_eq in E3; subst; reflexivity|].
  simpl. apply andb_false_r.
Qed.

Lemma bind_normal {A B} (m : M A) (k : A -> M B) (w w' : World) (a : A) :
  m w = (Normal a, w') -> bind m k w = k a w'.
Proof. intros H. unfold bind. rewrite H. reflexivity. Qed.

Lemma when_when (a b : bool) (body : M unit) :
  when a (when b body) = when (a && b) body.
Proof. destruct a, b; reflexivity. Qed.

Lemma emit_appended (e : Effect) (w : World) :
  emit e w = (Normal tt, appended [e] w).
Proof. destruct w; reflexivity. Qed.

Lemma appended_nil (w : World) : appended [] w = w.
Proof. destruct w. unfold appended. simpl. rewrite app_nil_r. reflexivity. Qed.

Lemma when_emit (c : bool) (e : Effect) (w : World) :
  when c (emit e) w = (Normal tt, appended (if c then [e] else []) w).
Proof.
  destruct c; simpl; [apply emit_appended|].
  unfold ret. rewrite appended_nil. reflexivity.
Qed.

Lemma status_block_runs (data : InboundEvent) (w : World) :
  when (terminal_event data)
       (set_isProcessing false ;;
        set_disabled send_btn false ;;
        set_disabled stop_btn true ;;
        set_status_text "" ;;
        match result data with
        | Some r => when (truthy r) (emit (AddAIMessage r))
        | None => ret tt
        end) w
  = (Normal tt,
     {| app := if terminal_event data
               then {| sessionId := sessionId (app w); isProcessing := false |}
               else app w;
        dom := if terminal_event data
               then {| send_btn_disabled := false; stop_btn_disabled := true;
                       status_indicator_text := "" |}
               else dom w;
        clock := clock w; ticks := ticks w;
        trace := trace w ++ status_effects data |}).
Proof.
  unfold status_effects. destruct w as [[sid busy] [send stop text] c k tr].
  destruct (terminal_event data); simpl.
  - destruct (result data) as [r|]; [destruct (truthy r)|];
      unfold bind, set_isProcessing, set_disabled, set_status_text, emit,
        with_app, with_dom, ret; simpl; rewrite <- ?app_assoc; reflexivity.
  - unfold ret. rewrite app_nil_r. reflexivity.
Qed.

Lemma system_logs_block_runs (data : InboundEvent) (w : World) :
  when (non_empty (system_logs data))
       (emit (ConsoleLog [JStr "收到系统日志:";
                          JArr (map JStr (elements (system_logs data)))]) ;;
        logSteps <- map_M (fun log => ms <- date_now ;; ret (log_step log ms))
                          (elements (system_logs data)) ;;
        emit (AddThinkingSteps logSteps)) w
  = (Normal tt,
     {| app := app w; dom := dom w; clock := clock w;
        ticks := ticks w + event_readings data;
        trace := trace w ++ system_logs_effects data (clock w) (ticks w) |}).
Proof.
  unfold system_logs_effects, event_readings. destruct w as [a d c k tr].
  destruct (non_empty (system_logs data)); simpl.
  - unfold bind at 1. rewrite emit_appended.
    unfold bind at 1. rewrite map_M_log_steps.
    unfold emit, appended. simpl. rewrite <- app_assoc. reflexivity.
  - unfold ret. rewrite app_nil_r, Nat.add_0_r. reflexivity.
Qed.

Lemma handleWebSocketMessage_runs (data : InboundEvent) (w : World) :
  handleWebSocketMessage data w = (Normal tt, after_event data w).
Proof.
  unfold handleWebSocketMessage.
  rewrite when_when, terminal_guard.
  erewrite bind_normal by apply status_block_runs.
  erewrite bind_normal by apply when_emit.
  erewrite bind_normal by apply when_emit.
  erewrite bind_normal by apply system_logs_block_runs.
  erewrite bind_normal by apply when_emit.
  rewrite when_emit.
  destruct w as [a d now k tr].
  unfold after_event, appended, event_effects. simpl.
  unfold thinking_effects, terminal_output_effects, chat_logs_effects,
    completed_effects.
  rewrite <- !app_assoc. reflexivity.
Qed.

Ltac destruct_world w :=
  destruct w as [[? ?] [? ? ?] ? ? ?].

Ltac run_handler :=
  unfold try_catch, when, bind, await_fetch, await_json, read_session_id,
    get_isProcessing, get_sessionId, set_isProcessing, set_sessionId,
    set_disabled, set_status_text, emit, with_app, with_dom, throw, ret;
  simpl.

Lemma handleSendMessage_enter_busy (message : string) (w : World) :
  isProcessing (app w) = true ->
  handleSendMessage_enter message w
  = (Normal false, appended [ConsoleLog [JStr "正在处理中，请等待..."]] w).
Proof.
  destruct_world w. simpl. intros ->.
  unfold handleSendMessage_enter. run_handler. reflexivity.
Qed.

Lemma handleSendMessage_enter_idle (message : string) (w : World) :
  isProcessing (app w) = false ->
  handleSendMessage_enter message w = (Normal true, after_submit_enter message w).
Proof.
  destruct_world w. simpl. intros ->.
  unfold handleSendMessage_enter, after_submit_enter. run_handler.
  rewrite <- !app_assoc. reflexivity.
Qed.

Lemma handleSendMessage_resume_runs (message : string) (o : FetchOutcome) (w : World) :
  handleSendMessage_resume message o w = (Normal tt, after_create message o w).
Proof.
  destruct_world w.
  unfold handleSendMessage_resume, handleSendMessage_catch, after_create,
    after_create_failure, after_create_success, create_outcome.
  destruct o as [m | [ok st [m | data]]]; [| destruct ok ..];
    try destruct data; run_handler; rewrite <- ?app_assoc; reflexivity.
Qed.

Lemma stopProcessing_enter_runs (w : World) :
  stopProcessing_enter w
  = if truthy (sessionId (app w))
    then (Normal true, appended [Fetch (PostStop (sessionId (app w)))] w)
    else (Normal false, w).
Proof.
  destruct_world w. unfold stopProcessing_enter. run_handler.
  destruct (truthy _); reflexivity.
Qed.

Lemma stopProcessing_resume_runs (o : FetchOutcome) (w : World) :
  stopProcessing_resume o w = (Normal tt, after_stop o w).
Proof.
  destruct_world w.
  unfold stopProcessing_resume, stopProcessing_catch, after_stop,
    after_stop_success, stop_failure_effects, request_failure.
  destruct o as [m | [ok st body]]; [| destruct ok];
    run_handler; rewrite <- ?app_assoc; reflexivity.
Qed.

Lemma handleSendMessage_busy (message : string) (o : FetchOutcome) (w : World) :
  isProcessing (app w) = true ->
  handleSendMessage message o w
  = (Normal tt, appended [ConsoleLog [JStr "正在处理中，请等待..."]] w).
Proof.
  intros busy. unfold handleSendMessage.
  erewrite bind_normal by (apply handleSendMessage_enter_busy; exact busy).
  reflexivity.
Qed.

Lemma handleSendMessage_idle (message : string) (o : FetchOutcome) (w : World) :
  isProcessing (app w) = false ->
  handleSendMessage message o w
  = (Normal tt, after_create message o (after_submit_enter message w)).
Proof.
  intros idle. unfold handleSendMessage.
  erewrite bind_normal by (apply handleSendMessage_enter_idle; exact idle).
  simpl. apply handleSendMessage_resume_runs.
Qed.

Lemma request_failure_create_outcome (o : FetchOutcome) (reason : string) :
  request_failure o = Some reason -> create_outcome o = inl reason.
Proof.
  destruct o as [m | response]; simpl.
  - intros [= ->]. reflexivity.
  - destruct (Response.ok response); [discriminate|]. intros [= ->]. reflexivity.
Qed.

Lemma stopProcessing_with_session (o : FetchOutcome) (w : World) :
  truthy (sessionId (app w)) = true ->
  stopProcessing o w
  = (Normal tt, after_stop o (appended [Fetch (PostStop (sessionId (app w)))] w)).
Proof.
  intros session. unfold stopProcessing.
  erewrite bind_normal by (rewrite stopProcessing_enter_runs, session; reflexivity).
  simpl. apply stopProcessing_resume_runs.
Qed.

Lemma event_new_effects (data : InboundEvent) (w : World) :
  new_effects w (exec (handleWebSocketMessage data) w)
  = event_effects data (clock w) (ticks w).
Proof.
  unfold exec. rewrite handleWebSocketMessage_runs. simpl.
  apply new_effects_app. reflexivity.
Qed.

Lemma terminal_event_of_status (data : InboundEvent) (s : string) :
  status data = Some s ->
  s = "completed" \/ s = "error" \/ s = "stopped" ->
  terminal_event data = true.
Proof.
  intros Hs H. unfold terminal_event. rewrite Hs.
  destruct H as [-> | [-> | ->]]; reflexivity.
Qed.

(** The blocks after the status block: what each keeps under a filter. *)
Ltac case_blocks data :=
  unfold thinking_effects, terminal_output_effects, system_logs_effects,
    chat_logs_effects, completed_effects;
  destruct (non_empty (thinking_steps data));
  destruct (non_empty (terminal_output data));
  destruct (non_empty (system_logs data));
  destruct (non_empty (chat_logs data));
  destruct (status_is data "completed");
  simpl.

Lemma ai_messages_of_event (data : InboundEvent) (now : nat -> Z) (k : nat) :
  filter is_ai_message (event_effects data now k)
  = filter is_ai_message (status_effects data).
Proof.
  unfold event_effects. rewrite filter_app.
  rewrite <- (app_nil_r (filter is_ai_message (status_effects data))) at 2.
  f_equal. case_blocks data; reflexivity.
Qed.

Lemma processing_writes_of_event (data : InboundEvent) (now : nat -> Z) (k : nat) :
  filter is_processing_write (event_effects data now k)
  = filter is_processing_write (status_effects data).
Proof.
  unfold event_effects. rewrite filter_app.
  rewrite <- (app_nil_r (filter is_processing_write (status_effects data))) at 2.
  f_equal. case_blocks data; reflexivity.
Qed.

Lemma thinking_calls_of_event (data : InboundEvent) (now : nat -> Z) (k : nat) :
  filter is_thinking_call (event_effects data now k)
  = thinking_effects data
    ++ (if non_empty (system_logs data)
        then [AddThinkingSteps (stamped (elements (system_logs data)) now k)]
        else []).
Proof.
  unfold event_effects. rewrite filter_app.
  assert (E : filter is_thinking_call (status_effects data) = []).
  { unfold status_effects. destruct (terminal_event data); [|reflexivity].
    destruct (result data) as [r|]; [destruct (truthy r)|]; reflexivity. }
  rewrite E. case_blocks data; reflexivity.
Qed.

Lemma collaborator_calls_of_event (data : InboundEvent) (now : nat -> Z) (k : nat) :
  filter is_collaborator_call (event_effects data now k)
  = filter is_collaborator_call (status_effects data)
    ++ thinking_effects data
    ++ (if non_empty (system_logs data)
        then [AddThinkingSteps (stamped (elements (system_logs data)) now k)]
        else []).
Proof.
  unfold event_effects. rewrite filter_app. f_equal.
  case_blocks data; reflexivity.
Qed.

Lemma stamped_fields (logs : list string) (now : nat -> Z) (k : nat) :
  Forall2 (fun log step =>
             field "message" step = JStr log
             /\ field "type" step = JStr "system_log"
             /\ field "details" step = JNull)
          logs (stamped logs now k).
Proof.
  revert k. induction logs as [|log rest IH]; intros k; simpl; constructor.
  - repeat split.
  - apply IH.
Qed.

Lemma stamped_up_to_timestamp (logs : list string) (now now' : nat -> Z) (k k' : nat) :
  Forall2 same_step_up_to_timestamp (stamped logs now k) (stamped logs now' k').
Proof.
  revert k k'. induction logs as [|log rest IH]; intros k k'; simpl; constructor.
  - apply same_step_log.
  - apply IH.
Qed.

Lemma stamped_same_readings (logs : list string) (now now' : nat -> Z) (k k' : nat) :
  (forall i : nat, (i < length logs)%nat -> now' (k' + i)%nat = now (k + i)%nat) ->
  stamped logs now' k' = stamped logs now k.
Proof.
  revert k k'. induction logs as [|log rest IH]; intros k k' H; simpl.
  - reflexivity.
  - f_equal.
    + specialize (H 0 (Nat.lt_0_succ _)). rewrite !Nat.add_0_r in H.
      rewrite H. reflexivity.
    + apply IH. intros i Hi.
      specialize (H (S i) (proj1 (Nat.succ_lt_mono _ _) Hi)).
      rewrite !Nat.add_succ_r in H. exact H.
Qed.

Lemma same_calls_refl (es : list Effect) :
  Forall2 same_call_up_to_timestamp es es.
Proof. induction es; constructor; [apply same_call_verbatim | assumption]. Qed.

Lemma returned_session_id_create (o : FetchOutcome) :
  returned_session_id o
  = match create_outcome o with
    | inr sid => Some sid
    | inl _ => None
    end.
Proof.
  destruct o as [m | [ok st [m | data]]]; simpl; [reflexivity| | ];
    destruct ok; try reflexivity.
  destruct data; reflexivity.
Qed.

Lemma stop_click_keeps_app (w : World) :
  app (snd (stop_click_enter w)) = app w.
Proof.
  unfold stop_click_enter, bind, get_sessionId, get_isProcessing, ret. simpl.
  destruct (truthy (sessionId (app w)) && isProcessing (app w)); [|reflexivity].
  rewrite stopProcessing_enter_runs.
  destruct (truthy (sessionId (app w))); [|reflexivity].
  destruct w; reflexivity.
Qed.

Lemma step_preserves_invariant (s : Sys) (i : Input) :
  well_formed_input i = true ->
  session_known_or_pending s ->
  session_known_or_pending (step s i).
Proof.
  unfold session_known_or_pending.
  intros wf inv. destruct i as [message | k o | data | | o]; simpl.
  - (* Submit *)
    destruct (isProcessing (app (world s))) eqn:busy.
    + rewrite handleSendMessage_enter_busy by exact busy. simpl.
      destruct (world s); simpl in *. intros _. apply inv. reflexivity.
    + rewrite handleSendMessage_enter_idle by exact busy. simpl.
      intros _. right. destruct (creating s); discriminate.
  - (* CreateSettles *)
    destruct (nth_error (creating s) k) as [message|]; [|exact inv]. simpl.
    unfold exec. rewrite handleSendMessage_resume_runs. simpl.
    simpl in wf. rewrite returned_session_id_create in wf. unfold after_create.
    destruct (create_outcome o) as [reason | sid]; simpl.
    + discriminate.
    + intros _. left. apply negb_true_iff. exact wf.
  - (* StreamEvent *)
    unfold exec. rewrite handleWebSocketMessage_runs. simpl.
    destruct (terminal_event data); simpl; [discriminate | exact inv].
  - (* StopClick *)
    pose proof (stop_click_keeps_app (world s)) as K.
    destruct (stop_click_enter (world s)) as [[[|]|m] w']; simpl in *;
      rewrite K; exact inv.
  - (* StopSettles *)
    destruct (stopping s) as [|n]; [exact inv|]. simpl.
    unfold exec. rewrite stopProcessing_resume_runs. simpl.
    unfold after_stop. destruct (request_failure o) as [reason|]; simpl.
    + destruct (world s); simpl in *. exact inv.
    + discriminate.
Qed.

(** The continuation of a create-session request, whenever it runs: on
    failure it forces the idle state; on success it stores the identifier
    and leaves [isProcessing] as it finds it. *)
Lemma create_failure_continuation
    (message : string) (o : FetchOutcome) (reason : string) (w : World) :
  request_failure o = Some reason ->
  exec (handleSendMessage_resume message o) w = after_create_failure reason w.
Proof.
  intros failure. unfold exec. rewrite handleSendMessage_resume_runs. simpl.
  unfold after_create. rewrite (request_failure_create_outcome o reason failure).
  reflexivity.
Qed.

Lemma create_success_continuation
    (message : string) (o : FetchOutcome) (sid : JsVal) (w : World) :
  returned_session_id o = Some sid ->
  exec (handleSendMessage_resume message o) w = after_create_success message sid w.
Proof.
  intros success. unfold exec. rewrite handleSendMessage_resume_runs. simpl.
  unfold after_create. rewrite returned_session_id_create in success.
  destruct (create_outcome o); [discriminate|]. injection success as ->. reflexivity.
Qed.

(** ** The claims *)

(** C1, amended.  In every state the controller reaches from its
    construction, under any interleaving of submissions, settled requests,
    stream events and stop clicks in which every successful create-session
    response carries a session identifier (neither null nor undefined):
    whenever [isProcessing] is true, either [sessionId] is non-null or a
    create-session request is still in flight. *)
Theorem active_implies_session_or_request_in_flight
    (page : Dom) (now : nat -> Z) (inputs : list Input) :
  forallb well_formed_input inputs = true ->
  let s := run inputs (initial_sys page now) in
  isProcessing (app (world s)) = true ->
  nullish (sessionId (app (world s))) = false \/ creating s <> [].
Proof.
  intros wf s. subst s. change (session_known_or_pending (run inputs (initial_sys page now))).
  assert (init : session_known_or_pending (initial_sys page now))
    by (unfold session_known_or_pending; simpl; discriminate).
  revert wf init. generalize (initial_sys page now).
  induction inputs as [|i rest IH]; intros s wf inv; simpl.
  - exact inv.
  - simpl in wf. apply andb_true_iff in wf. destruct wf as [wfi wfrest].
    apply IH; [exact wfrest|]. apply step_preserves_invariant; assumption.
Qed.

(** C2.  While [isProcessing] is true, a call of [handleSendMessage] with
    any message (whatever a request would have returned) issues no request
    and leaves no continuation, calls no collaborator, and leaves the
    controller fields ([sessionId], [isProcessing]) and the page (both
    buttons, the status indicator) as they were: all it does is write one
    line to the console. *)
Theorem submit_while_active_is_ignored
    (message : string) (o : FetchOutcome) (w : World) :
  isProcessing (app w) = true ->
  let w' := exec (handleSendMessage message o) w in
  fst (handleSendMessage_enter message w) = Normal false
  /\ app w' = app w
  /\ dom w' = dom w
  /\ new_effects w w' = [ConsoleLog [JStr "正在处理中，请等待..."]]
  /\ filter is_fetch (new_effects w w') = []
  /\ filter is_collaborator_call (new_effects w w') = [].
Proof.
  intros busy w'. subst w'. unfold exec.
  rewrite handleSendMessage_enter_busy, handleSendMessage_busy by exact busy.
  assert (E : new_effects w (appended [ConsoleLog [JStr "正在处理中，请等待..."]] w)
              = [ConsoleLog [JStr "正在处理中，请等待..."]])
    by (apply new_effects_app; destruct w; reflexivity).
  simpl. rewrite E. destruct w; simpl. repeat split.
Qed.

(** C4.  A call of [handleSendMessage] made while idle whose create-session
    request fails (the fetch rejects, or the response has a non-success
    status) ends with [isProcessing] false, the send button enabled, the
    stop button disabled and the status indicator empty; the chat history
    received exactly one call, [addSystemMessage] with the localised
    "error_occurred" text built from the failure reason, and no other
    collaborator was called. *)
Theorem failed_submit_returns_to_idle
    (message : string) (o : FetchOutcome) (reason : string) (w : World) :
  isProcessing (app w) = false ->
  request_failure o = Some reason ->
  let w' := exec (handleSendMessage message o) w in
  isProcessing (app w') = false
  /\ send_btn_disabled (dom w') = false
  /\ stop_btn_disabled (dom w') = true
  /\ status_indicator_text (dom w') = ""
  /\ filter is_collaborator_call (new_effects w w')
     = [AddSystemMessage (t "error_occurred" [("message", JStr reason)])]
  /\ filter is_system_message (new_effects w w')
     = [AddSystemMessage (t "error_occurred" [("message", JStr reason)])].
Proof.
  intros idle failure w'. subst w'. unfold exec.
  rewrite handleSendMessage_idle by exact idle.
  unfold after_create. rewrite (request_failure_create_outcome o reason failure).
  match goal with |- context [new_effects w ?x] =>
    rewrite (new_effects_app w x
               ([SetIsProcessing true; SetDisabled send_btn true;
                 SetDisabled stop_btn false;
                 SetStatusText (t "processing_request" []);
                 Fetch (PostChat message)]
                ++ [ConsoleError [JStr (t "send_message_error" [("message", JStr reason)]);
                                  error_object reason];
                    AddSystemMessage (t "error_occurred" [("message", JStr reason)]);
                    SetIsProcessing false; SetDisabled send_btn false;
                    SetDisabled stop_btn true; SetStatusText ""]))
  end.
  - simpl. repeat split.
  - simpl. rewrite <- app_assoc. reflexivity.
Qed.

(** C8.  A call of [stopProcessing] made with a session identifier stored
    (so that the stop request is issued) whose request fails (the fetch
    rejects, or the response has a non-success status) reports the failure
    to the chat history as one system message built from the failure
    reason, and leaves [isProcessing], [sessionId], both buttons and the
    status indicator unchanged. *)
Theorem failed_cancel_changes_no_state
    (o : FetchOutcome) (reason : string) (w : World) :
  truthy (sessionId (app w)) = true ->
  request_failure o = Some reason ->
  let w' := exec (stopProcessing o) w in
  app w' = app w
  /\ dom w' = dom w
  /\ filter is_collaborator_call (new_effects w w')
     = [AddSystemMessage (t "error_occurred" [("message", JStr reason)])]
  /\ filter is_fetch (new_effects w w') = [Fetch (PostStop (sessionId (app w)))].
Proof.
  intros session failure w'. subst w'. unfold exec.
  rewrite stopProcessing_with_session by exact session.
  unfold after_stop. rewrite failure.
  match goal with |- context [new_effects w ?x] =>
    rewrite (new_effects_app w x
               ([Fetch (PostStop (sessionId (app w)))] ++ stop_failure_effects reason))
  end.
  - destruct w; simpl. repeat split.
  - destruct w; simpl. rewrite <- app_assoc. reflexivity.
Qed.

(** C5.  An event whose [status] is present and is "completed", "error" or
    "stopped" makes [handleWebSocketMessage] leave [isProcessing] false,
    the send button enabled, the stop button disabled and the status
    indicator empty, and the dispatch assigns [isProcessing] exactly once
    (the value false). *)
Theorem terminal_status_returns_to_idle
    (data : InboundEvent) (s : string) (w : World) :
  status data = Some s ->
  s = "completed" \/ s = "error" \/ s = "stopped" ->
  let w' := exec (handleWebSocketMessage data) w in
  isProcessing (app w') = false
  /\ send_btn_disabled (dom w') = false
  /\ stop_btn_disabled (dom w') = true
  /\ status_indicator_text (dom w') = ""
  /\ filter is_processing_write (new_effects w w') = [SetIsProcessing false].
Proof.
  intros Hs Hterm w'. subst w'.
  pose proof (terminal_event_of_status data s Hs Hterm) as T.
  rewrite event_new_effects, processing_writes_of_event.
  unfold exec. rewrite handleWebSocketMessage_runs. simpl.
  unfold status_effects. rewrite T. repeat split.
  destruct (result data) as [r|]; [destruct (truthy r)|]; reflexivity.
Qed.

(** C6, amended.  An event with [status] "completed" and a [result] that
    is present and truthy (not null, false, 0 or the empty string) makes
    [handleWebSocketMessage] call [addAIMessage] exactly once, with that
    result. *)
Theorem completed_result_forwarded_when_truthy
    (data : InboundEvent) (r : JsVal) (w : World) :
  status data = Some "completed" ->
  result data = Some r ->
  truthy r = true ->
  let w' := exec (handleWebSocketMessage data) w in
  filter is_ai_message (new_effects w w') = [AddAIMessage r].
Proof.
  intros Hs Hr Ht w'. subst w'.
  rewrite event_new_effects, ai_messages_of_event.
  unfold status_effects, terminal_event. rewrite Hs, Hr, Ht. reflexivity.
Qed.

(** C7.  An event with a non-empty [system_logs] makes
    [handleWebSocketMessage] call the thinking timeline as follows: first
    [addThinkingSteps(thinking_steps)] when the event also carries a
    non-empty [thinking_steps], then one [addThinkingSteps] call with one
    step per log line, in the order of the lines, each step with [message]
    the line, [type] "system_log" and [details] null; and nothing else. *)
Theorem system_logs_forwarded_in_one_call
    (data : InboundEvent) (logs : list string) (w : World) :
  system_logs data = Some logs ->
  logs <> [] ->
  let w' := exec (handleWebSocketMessage data) w in
  exists steps : list JsVal,
    filter is_thinking_call (new_effects w w')
    = match thinking_steps data with
      | Some (step :: rest) => [AddThinkingSteps (step :: rest)]
      | _ => []
      end ++ [AddThinkingSteps steps]
    /\ Forall2 (fun log step =>
                  field "message" step = JStr log
                  /\ field "type" step = JStr "system_log"
                  /\ field "details" step = JNull)
               logs steps.
Proof.
  intros Hlogs Hne w'. subst w'.
  exists (stamped logs (clock w) (ticks w)). split.
  - rewrite event_new_effects, thinking_calls_of_event.
    unfold thinking_effects. rewrite Hlogs.
    destruct logs as [|log rest]; [contradiction|]. simpl.
    destruct (thinking_steps data) as [[|step steps]|]; reflexivity.
  - apply stamped_fields.
Qed.

(** C9, amended.  Dispatching the same event twice, from any controller
    state, produces the same sequence of collaborator calls twice, except
    that a step made from a log line carries as [timestamp] the clock
    reading taken during its own dispatch; when the second dispatch reads
    the same clock values as the first, the two sequences are identical. *)
Theorem redispatch_same_calls_up_to_timestamp
    (data : InboundEvent) (w : World) :
  let w1 := exec (handleWebSocketMessage data) w in
  let w2 := exec (handleWebSocketMessage data) w1 in
  Forall2 same_call_up_to_timestamp
          (filter is_collaborator_call (new_effects w w1))
          (filter is_collaborator_call (new_effects w1 w2))
  /\ ((forall i : nat, (i < length (elements (system_logs data)))%nat ->
                 clock w (ticks w1 + i)%nat = clock w (ticks w + i)%nat) ->
      filter is_collaborator_call (new_effects w1 w2)
      = filter is_collaborator_call (new_effects w w1)).
Proof.
  intros w1 w2. subst w2 w1.
  rewrite !event_new_effects, !collaborator_calls_of_event.
  assert (C : clock (exec (handleWebSocketMessage data) w) = clock w)
    by (unfold exec; rewrite handleWebSocketMessage_runs; reflexivity).
  rewrite C. split.
  - apply Forall2_app; [apply same_calls_refl|].
    apply Forall2_app; [apply same_calls_refl|].
    destruct (non_empty (system_logs data)); constructor; [|constructor].
    apply same_call_steps, stamped_up_to_timestamp.
  - intros H. do 2 f_equal.
    destruct (non_empty (system_logs data)); [|reflexivity].
    do 2 f_equal. apply stamped_same_readings. exact H.
Qed.

(** C10, amended.  An event whose [status] is "error" or "stopped" and
    whose [result] is present and truthy makes [handleWebSocketMessage]
    call [addAIMessage] with that result, exactly as for "completed": the
    forwarding sits under the test for any terminal status. *)
Theorem error_or_stopped_result_forwarded_when_truthy
    (data : InboundEvent) (s : string) (r : JsVal) (w : World) :
  status data = Some s ->
  s = "error" \/ s = "stopped" ->
  result data = Some r ->
  truthy r = true ->
  let w' := exec (handleWebSocketMessage data) w in
  filter is_ai_message (new_effects w w') = [AddAIMessage r].
Proof.
  intros Hs Hterm Hr Ht w'. subst w'.
  rewrite event_new_effects, ai_messages_of_event.
  unfold status_effects.
  rewrite (terminal_event_of_status data s Hs (or_intror Hterm)), Hr, Ht.
  reflexivity.
Qed.

(** ** Further properties of the handlers *)

Ltac case_event data :=
  unfold event_effects, status_effects, thinking_effects, terminal_output_effects,
    system_logs_effects, chat_logs_effects, completed_effects;
  destruct (terminal_event data);
  [destruct (result data) as [r|]; [destruct (truthy r)|]|];
  destruct (non_empty (thinking_steps data));
  destruct (non_empty (terminal_output data));
  destruct (non_empty (system_logs data));
  destruct (non_empty (chat_logs data));
  destruct (status_is data "completed");
  simpl.

Lemma not_terminal_event (data : InboundEvent) :
  (forall s, status data = Some s ->
             s <> "completed" /\ s <> "error" /\ s <> "stopped") ->
  terminal_event data = false /\ status_is data "completed" = false.
Proof.
  intros H. unfold terminal_event, status_is, is_terminal.
  destruct (status data) as [s|]; [|split; reflexivity].
  destruct (H s eq_refl) as (H1 & H2 & H3).
  apply String.eqb_neq in H1, H2, H3. rewrite H1, H2, H3. split; reflexivity.
Qed.

Lemma non_empty_elements {A} (field : option (list A)) :
  non_empty field = false <-> elements field = [].
Proof.
  destruct field as [[|x l]|]; simpl; split; intros H;
    try reflexivity; discriminate.
Qed.

(** X1.  An event whose [status] is absent or is none of "completed",
    "error", "stopped" leaves the controller fields and the page as they
    were and calls the chat history not at all, whatever its [result]. *)
Theorem non_terminal_event_changes_no_state (data : InboundEvent) (w : World) :
  (forall s, status data = Some s ->
             s <> "completed" /\ s <> "error" /\ s <> "stopped") ->
  let w' := exec (handleWebSocketMessage data) w in
  app w' = app w
  /\ dom w' = dom w
  /\ filter is_state_write (new_effects w w') = []
  /\ filter is_chat_call (new_effects w w') = []
  /\ filter is_timer (new_effects w w') = [].
Proof.
  intros H w'. subst w'. destruct (not_terminal_event data H) as [T C].
  rewrite event_new_effects. unfold exec.
  rewrite handleWebSocketMessage_runs. unfold after_event. simpl.
  unfold event_effects, status_effects, thinking_effects, terminal_output_effects,
    system_logs_effects, chat_logs_effects, completed_effects.
  rewrite T, C.
  destruct (non_empty (thinking_steps data)), (non_empty (terminal_output data)),
    (non_empty (system_logs data)), (non_empty (chat_logs data));
    repeat split.
Qed.

(** X2.  A dispatch schedules the workspace refresh exactly when [status]
    is "completed": then one timer of 1000 ms, otherwise (absent status,
    "error", "stopped", anything else) none. *)
Theorem refresh_scheduled_only_on_completed (data : InboundEvent) (w : World) :
  filter is_timer (new_effects w (exec (handleWebSocketMessage data) w))
  = match status data with
    | Some s => if s =? "completed" then [SetTimeoutLoadWorkspaceFiles 1000] else []
    | None => []
    end.
Proof.
  rewrite event_new_effects.
  transitivity (if status_is data "completed"
                then [SetTimeoutLoadWorkspaceFiles 1000] else []).
  - case_event data; reflexivity.
  - unfold status_is. destruct (status data); reflexivity.
Qed.

(** X3.  An event with no terminal status in which every sequence field is
    absent or empty does nothing at all: the world after the dispatch is the
    world before it. *)
Theorem empty_event_is_ignored (data : InboundEvent) (w : World) :
  (forall s, status data = Some s ->
             s <> "completed" /\ s <> "error" /\ s <> "stopped") ->
  elements (thinking_steps data) = [] ->
  elements (terminal_output data) = [] ->
  elements (system_logs data) = [] ->
  elements (chat_logs data) = [] ->
  exec (handleWebSocketMessage data) w = w.
Proof.
  intros H H1 H2 H3 H4. destruct (not_terminal_event data H) as [T C].
  apply non_empty_elements in H1, H2, H3, H4.
  unfold exec. rewrite handleWebSocketMessage_runs. unfold after_event. simpl.
  unfold event_readings, event_effects, status_effects, thinking_effects,
    terminal_output_effects, system_logs_effects, chat_logs_effects,
    completed_effects.
  rewrite T, C, H1, H2, H3, H4. simpl.
  rewrite app_nil_r, Nat.add_0_r. destruct w; reflexivity.
Qed.

(** X4.  [terminal_output] and [chat_logs] are only logged: dropping both
    fields from an event changes neither the state after the dispatch nor
    any of its actions other than console lines. *)
Theorem logged_fields_only_reach_the_console (data : InboundEvent) (w : World) :
  let w1 := exec (handleWebSocketMessage data) w in
  let w2 := exec (handleWebSocketMessage (without_logged_fields data)) w in
  app w1 = app w2
  /\ dom w1 = dom w2
  /\ ticks w1 = ticks w2
  /\ filter (fun e => negb (is_console e)) (new_effects w w1)
     = filter (fun e => negb (is_console e)) (new_effects w w2).
Proof.
  intros w1 w2. subst w1 w2. rewrite !event_new_effects. unfold exec.
  rewrite !handleWebSocketMessage_runs. unfold after_event. simpl.
  repeat split.
  unfold event_effects, status_effects, thinking_effects, terminal_output_effects,
    system_logs_effects, chat_logs_effects, completed_effects, terminal_event,
    status_is. simpl.
  rewrite !filter_app. f_equal. f_equal.
  destruct (non_empty (terminal_output data)), (non_empty (system_logs data)),
    (non_empty (chat_logs data)); reflexivity.
Qed.

(** X5.  No dispatched event assigns [sessionId] or issues a request: the
    identifier of a finished session stays stored.  The clock is read once
    per forwarded log line. *)
Theorem event_keeps_session_id (data : InboundEvent) (w : World) :
  let w' := exec (handleWebSocketMessage data) w in
  sessionId (app w') = sessionId (app w)
  /\ filter is_session_write (new_effects w w') = []
  /\ filter is_fetch (new_effects w w') = []
  /\ ticks w' = ticks w + length (elements (system_logs data)).
Proof.
  intros w'. subst w'. rewrite event_new_effects. unfold exec.
  rewrite handleWebSocketMessage_runs. unfold after_event. simpl.
  split; [destruct (terminal_event data); reflexivity|].
  split; [case_event data; reflexivity|].
  split; [case_event data; reflexivity|].
  unfold event_readings.
  destruct (system_logs data) as [[|log rest]|]; simpl; rewrite ?Nat.add_0_r; reflexivity.
Qed.

(** X6.  A dispatch calls the thinking timeline if and only if
    [thinking_steps] or [system_logs] is a non-empty sequence; it never
    clears the timeline. *)
Theorem thinking_timeline_called_iff_steps_or_logs (data : InboundEvent) (w : World) :
  let calls := filter is_thinking_call
                 (new_effects w (exec (handleWebSocketMessage data) w)) in
  (calls = [] <->
   elements (thinking_steps data) = [] /\ elements (system_logs data) = [])
  /\ ~ In ClearThinking calls.
Proof.
  intros calls. subst calls. rewrite event_new_effects, thinking_calls_of_event.
  unfold thinking_effects. rewrite <- !non_empty_elements.
  destruct (non_empty (thinking_steps data)), (non_empty (system_logs data)); simpl;
    (split; [split; [intros H; try discriminate H; split; reflexivity
                    | intros [H1 H2]; try discriminate; reflexivity]
            | intros H; repeat (destruct H as [H|H]; [discriminate H|]); exact H]).
Qed.

Lemma stop_click_when_inert (w : World) :
  truthy (sessionId (app w)) && isProcessing (app w) = false ->
  stop_click_enter w = (Normal false, w).
Proof.
  intros H. unfold stop_click_enter, bind, get_sessionId, get_isProcessing, ret.
  simpl. rewrite H. reflexivity.
Qed.

(** X7.  [stopProcessing] called while [sessionId] is null, undefined or
    the empty string returns at once: whatever a request would have
    answered, no request is issued and the world stays as it was. *)
Theorem cancel_without_session_does_nothing (o : FetchOutcome) (w : World) :
  truthy (sessionId (app w)) = false ->
  fst (stopProcessing_enter w) = Normal false
  /\ exec (stopProcessing o) w = w.
Proof.
  intros H. unfold exec, stopProcessing.
  assert (E : stopProcessing_enter w = (Normal false, w))
    by (rewrite stopProcessing_enter_runs, H; reflexivity).
  rewrite E. split; [reflexivity|].
  erewrite bind_normal by exact E. reflexivity.
Qed.

(** X8.  [stopProcessing] with a session identifier stored and a stop
    request that resolves with a success status: one request is issued, for
    the stored identifier; afterwards [isProcessing] is false, send is
    enabled, stop is disabled, the status indicator shows the localised
    "processing_stopped" text, the chat history got that text as its one
    system message, and [sessionId] is still the stored identifier. *)
Theorem successful_cancel_returns_to_idle
    (response : Response.t) (w : World) :
  truthy (sessionId (app w)) = true ->
  Response.ok response = true ->
  let w' := exec (stopProcessing (FetchResolves response)) w in
  isProcessing (app w') = false
  /\ sessionId (app w') = sessionId (app w)
  /\ dom w' = {| send_btn_disabled := false; stop_btn_disabled := true;
                 status_indicator_text := t "processing_stopped" [] |}
  /\ filter is_collaborator_call (new_effects w w')
     = [AddSystemMessage (t "processing_stopped" [])]
  /\ filter is_fetch (new_effects w w') = [Fetch (PostStop (sessionId (app w)))].
Proof.
  intros session Hok w'. subst w'. unfold exec.
  rewrite stopProcessing_with_session by exact session.
  unfold after_stop, request_failure. rewrite Hok.
  match goal with |- context [new_effects w ?x] =>
    rewrite (new_effects_app w x
               ([Fetch (PostStop (sessionId (app w)))]
                ++ [ConsoleLog [JStr "处理已停止"];
                    AddSystemMessage (t "processing_stopped" []);
                    SetStatusText (t "processing_stopped" []);
                    SetDisabled send_btn false; SetDisabled stop_btn true;
                    SetIsProcessing false]))
  end.
  - destruct w; simpl. repeat split.
  - destruct w; simpl. rewrite <- app_assoc. reflexivity.
Qed.

(** X9.  A click on the stop button while the controller is idle, or while
    no session identifier is stored (as between a first submission and its
    response), does nothing: no request, no change. *)
Theorem stop_click_ignored_when_idle_or_without_session (w : World) :
  isProcessing (app w) = false \/ truthy (sessionId (app w)) = false ->
  stop_click_enter w = (Normal false, w).
Proof.
  intros H. apply stop_click_when_inert.
  destruct H as [H|H]; rewrite H; [apply andb_false_r | reflexivity].
Qed.

(** X10.  Whenever the continuation of a create-session request runs and
    the [try] block ends in an exception (the fetch rejected, the status was
    not a success, the body was not JSON, or the body was null), whatever
    other handlers ran in between: [isProcessing] becomes false, send is
    enabled, stop is disabled, the status indicator is emptied, the one
    collaborator call is [addSystemMessage] with the "error_occurred" text
    of the exception message, and [sessionId] keeps the value it had. *)
Theorem create_exception_forces_idle
    (message : string) (o : FetchOutcome) (reason : string) (w : World) :
  create_outcome o = inl reason ->
  let w' := exec (handleSendMessage_resume message o) w in
  isProcessing (app w') = false
  /\ sessionId (app w') = sessionId (app w)
  /\ dom w' = {| send_btn_disabled := false; stop_btn_disabled := true;
                 status_indicator_text := "" |}
  /\ filter is_collaborator_call (new_effects w w')
     = [AddSystemMessage (t "error_occurred" [("message", JStr reason)])]
  /\ filter is_session_write (new_effects w w') = [].
Proof.
  intros Hout w'. subst w'. unfold exec.
  rewrite handleSendMessage_resume_runs. cbn [snd]. unfold after_create. rewrite Hout.
  rewrite (new_effects_app w (after_create_failure reason w)
             [ConsoleError [JStr (t "send_message_error" [("message", JStr reason)]);
                            error_object reason];
              AddSystemMessage (t "error_occurred" [("message", JStr reason)]);
              SetIsProcessing false; SetDisabled send_btn false;
              SetDisabled stop_btn true; SetStatusText ""])
    by reflexivity.
  simpl. repeat split.
Qed.

(** *** The steps of the system in closed form *)

Lemma step_submit_busy (s : Sys) (m : string) :
  isProcessing (app (world s)) = true ->
  step s (Submit m)
  = {| world := appended [ConsoleLog [JStr "正在处理中，请等待..."]] (world s);
       creating := creating s; stopping := stopping s |}.
Proof.
  intros busy. simpl. rewrite handleSendMessage_enter_busy by exact busy. reflexivity.
Qed.

Lemma step_submit_idle (s : Sys) (m : string) :
  isProcessing (app (world s)) = false ->
  step s (Submit m)
  = {| world := after_submit_enter m (world s);
       creating := creating s ++ [m]; stopping := stopping s |}.
Proof.
  intros idle. simpl. rewrite handleSendMessage_enter_idle by exact idle. reflexivity.
Qed.

Lemma step_create_settles (s : Sys) (k : nat) (o : FetchOutcome) (m : string) :
  nth_error (creating s) k = Some m ->
  step s (CreateSettles k o)
  = {| world := after_create m o (world s);
       creating := remove_nth k (creating s); stopping := stopping s |}.
Proof.
  intros H. simpl. rewrite H. unfold exec.
  rewrite handleSendMessage_resume_runs. reflexivity.
Qed.

Lemma step_stream_event (s : Sys) (data : InboundEvent) :
  step s (StreamEvent data)
  = {| world := after_event data (world s);
       creating := creating s; stopping := stopping s |}.
Proof. simpl. unfold exec. rewrite handleWebSocketMessage_runs. reflexivity. Qed.

Lemma stop_click_runs (w : World) :
  snd (stop_click_enter w)
  = if truthy (sessionId (app w)) && isProcessing (app w)
    then appended [Fetch (PostStop (sessionId (app w)))] w
    else w.
Proof.
  unfold stop_click_enter, bind, get_sessionId, get_isProcessing, ret. simpl.
  destruct (truthy (sessionId (app w))) eqn:session; simpl; [|reflexivity].
  destruct (isProcessing (app w)); [|reflexivity].
  rewrite stopProcessing_enter_runs, session. reflexivity.
Qed.

Lemma step_stop_click (s : Sys) :
  world (step s StopClick) = snd (stop_click_enter (world s))
  /\ creating (step s StopClick) = creating s.
Proof.
  simpl. destruct (stop_click_enter (world s)) as [[[|]|m] w']; split; reflexivity.
Qed.

Lemma step_stop_settles (s : Sys) (o : FetchOutcome) (n : nat) :
  stopping s = S n ->
  step s (StopSettles o)
  = {| world := after_stop o (world s); creating := creating s; stopping := n |}.
Proof.
  intros H. simpl. rewrite H. unfold exec.
  rewrite stopProcessing_resume_runs. reflexivity.
Qed.

Lemma appended_appended (es es' : list Effect) (w : World) :
  appended es' (appended es w) = appended (es ++ es') w.
Proof. destruct w. simpl. rewrite <- app_assoc. reflexivity. Qed.

Lemma submits_while_busy (ms : list string) (s : Sys) :
  isProcessing (app (world s)) = true ->
  run (map Submit ms) s
  = {| world := appended (repeat (ConsoleLog [JStr "正在处理中，请等待..."]) (length ms))
                         (world s);
       creating := creating s; stopping := stopping s |}.
Proof.
  revert s. induction ms as [|m rest IH]; intros s busy.
  - simpl. rewrite appended_nil. destruct s; reflexivity.
  - change (run (map Submit (m :: rest)) s)
      with (run (map Submit rest) (step s (Submit m))).
    rewrite step_submit_busy by exact busy.
    rewrite IH by (simpl; destruct (world s); exact busy).
    simpl. rewrite appended_appended. reflexivity.
Qed.

Lemma filter_repeat_none {A} (p : A -> bool) (x : A) (n : nat) :
  p x = false -> filter p (repeat x n) = [].
Proof. intros H. induction n; simpl; [|rewrite H]; auto. Qed.

(** X12.  Of any burst of submissions made while idle, with nothing
    settling in between, only the first one issues a create-session
    request; the others are dropped, and no collaborator is called. *)
Theorem only_first_submit_of_burst_is_sent
    (m : string) (ms : list string) (s : Sys) :
  isProcessing (app (world s)) = false ->
  let s' := run (map Submit (m :: ms)) s in
  filter is_fetch (new_effects (world s) (world s')) = [Fetch (PostChat m)]
  /\ filter is_collaborator_call (new_effects (world s) (world s')) = []
  /\ creating s' = creating s ++ [m]
  /\ isProcessing (app (world s')) = true.
Proof.
  intros idle s'. subst s'.
  change (run (map Submit (m :: ms)) s)
    with (run (map Submit ms) (step s (Submit m))).
  rewrite step_submit_idle by exact idle.
  rewrite submits_while_busy by reflexivity. simpl.
  set (line := ConsoleLog [JStr "正在处理中，请等待..."]).
  rewrite (new_effects_app (world s) _
             ([SetIsProcessing true; SetDisabled send_btn true;
               SetDisabled stop_btn false;
               SetStatusText (t "processing_request" []);
               Fetch (PostChat m)] ++ repeat line (length ms)))
    by (destruct (world s); simpl; rewrite <- app_assoc; reflexivity).
  rewrite !filter_app, !filter_repeat_none by reflexivity.
  destruct (world s); simpl. repeat split.
Qed.

Lemma step_keeps_buttons_mirror (s : Sys) (i : Input) :
  buttons_mirror_processing (world s) ->
  buttons_mirror_processing (world (step s i)).
Proof.
  unfold buttons_mirror_processing. intros inv.
  destruct i as [m | k o | data | | o].
  - destruct (isProcessing (app (world s))) eqn:busy.
    + rewrite step_submit_busy by exact busy.
      destruct (world s); simpl in *. rewrite busy. exact inv.
    + rewrite step_submit_idle by exact busy. simpl. split; reflexivity.
  - destruct (nth_error (creating s) k) as [m|] eqn:E.
    + rewrite (step_create_settles s k o m E). simpl. unfold after_create.
      destruct (create_outcome o); simpl; [split; reflexivity | exact inv].
    + simpl. rewrite E. exact inv.
  - rewrite step_stream_event. simpl.
    destruct (terminal_event data); simpl; [split; reflexivity | exact inv].
  - rewrite (proj1 (step_stop_click s)), stop_click_runs.
    destruct (truthy _ && _); [|exact inv].
    destruct (world s); simpl in *. exact inv.
  - destruct (stopping s) as [|n] eqn:E.
    + simpl. rewrite E. exact inv.
    + rewrite (step_stop_settles s o n E). simpl. unfold after_stop.
      destruct (request_failure o); simpl; [|split; reflexivity].
      destruct (world s); simpl in *. exact inv.
Qed.

(** X13.  On a page served with send enabled and stop disabled, in every
    state the controller reaches (under any interleaving of submissions,
    settled requests, stream events and stop clicks, well-formed or not) the
    send button is disabled exactly while [isProcessing] is true and the
    stop button exactly while it is false. *)
Theorem buttons_always_mirror_processing
    (page : Dom) (now : nat -> Z) (inputs : list Input) :
  send_btn_disabled page = false ->
  stop_btn_disabled page = true ->
  let w := world (run inputs (initial_sys page now)) in
  send_btn_disabled (dom w) = isProcessing (app w)
  /\ stop_btn_disabled (dom w) = negb (isProcessing (app w)).
Proof.
  intros Hsend Hstop w. subst w.
  change (buttons_mirror_processing (world (run inputs (initial_sys page now)))).
  assert (init : buttons_mirror_processing (world (initial_sys page now)))
    by (split; simpl; assumption).
  revert init. generalize (initial_sys page now).
  induction inputs as [|i rest IH]; intros s inv; simpl; [exact inv|].
  apply IH, step_keeps_buttons_mirror, inv.
Qed.

Lemma step_keeps_session_id (s : Sys) (i : Input) :
  creates_no_session i = true ->
  sessionId (app (world (step s i))) = sessionId (app (world s)).
Proof.
  intros H. destruct i as [m | k o | data | | o].
  - destruct (isProcessing (app (world s))) eqn:busy.
    + rewrite step_submit_busy by exact busy. destruct (world s); reflexivity.
    + rewrite step_submit_idle by exact busy. reflexivity.
  - destruct (nth_error (creating s) k) as [m|] eqn:E.
    + rewrite (step_create_settles s k o m E). simpl. unfold after_create.
      simpl in H. rewrite returned_session_id_create in H.
      destruct (create_outcome o); [reflexivity | discriminate H].
    + simpl. rewrite E. reflexivity.
  - rewrite step_stream_event. simpl. destruct (terminal_event data); reflexivity.
  - rewrite (proj1 (step_stop_click s)), stop_click_runs.
    destruct (truthy _ && _); [|reflexivity]. destruct (world s); reflexivity.
  - destruct (stopping s) as [|n] eqn:E.
    + simpl. rewrite E. reflexivity.
    + rewrite (step_stop_settles s o n E). simpl. unfold after_stop.
      destruct (request_failure o); [|reflexivity]. destruct (world s); reflexivity.
Qed.

(** X14.  [sessionId] is written by nothing but a create-session request
    that settles past line 132: over any sequence of inputs without one
    (submissions, failed create-session requests, stream events of any
    status, stop clicks, stop requests settling either way) it keeps its
    value; a terminal event or a successful cancel does not clear it. *)
Theorem session_id_changes_only_on_created_session
    (inputs : list Input) (s : Sys) :
  forallb creates_no_session inputs = true ->
  sessionId (app (world (run inputs s))) = sessionId (app (world s)).
Proof.
  revert s. induction inputs as [|i rest IH]; intros s H; simpl; [reflexivity|].
  simpl in H. apply andb_true_iff in H. destruct H as [Hi Hrest].
  unfold run in IH. rewrite IH by exact Hrest.
  apply step_keeps_session_id. exact Hi.
Qed.

Lemma count_app {A} (p : A -> bool) (l l' : list A) :
  count p (l ++ l') = count p l + count p l'.
Proof. unfold count. rewrite filter_app, length_app. reflexivity. Qed.

Lemma count_remove_nth {A} (p : A -> bool) (l : list A) (k : nat) (x : A) :
  nth_error l k = Some x ->
  count p (remove_nth k l) + (if p x then 1 else 0) = count p l.
Proof.
  revert k. induction l as [|y l IH]; intros [|k] H; simpl in H; try discriminate.
  - injection H as ->. unfold remove_nth, count. simpl.
    destruct (p x); simpl; lia.
  - specialize (IH k H).
    change (remove_nth (S k) (y :: l)) with (y :: remove_nth k l).
    unfold count in *. simpl. destruct (p y); simpl; lia.
Qed.

Lemma trace_appended (es : list Effect) (w : World) :
  trace (appended es w) = trace w ++ es.
Proof. destruct w; reflexivity. Qed.

Lemma event_counts_no_submission (m : string) (data : InboundEvent)
    (now : nat -> Z) (k : nat) :
  count (is_user_message_for m) (event_effects data now k) = 0
  /\ count (is_create_request_for m) (event_effects data now k) = 0.
Proof. unfold count. split; case_event data; reflexivity. Qed.

Lemma step_keeps_accounted (m : string) (s : Sys) (i : Input) :
  user_messages_accounted m s -> user_messages_accounted m (step s i).
Proof.
  unfold user_messages_accounted. intros inv.
  destruct i as [m' | k o | data | | o].
  - destruct (isProcessing (app (world s))) eqn:busy.
    + rewrite step_submit_busy by exact busy. simpl.
      rewrite trace_appended, !count_app. unfold count at 2 5. simpl. lia.
    + rewrite step_submit_idle by exact busy. simpl.
      rewrite !count_app. unfold count at 2 4 6. simpl.
      rewrite (String.eqb_sym m m'). destruct (m' =? m); simpl; lia.
  - destruct (nth_error (creating s) k) as [m'|] eqn:E.
    + rewrite (step_create_settles s k o m' E). simpl.
      pose proof (count_remove_nth (String.eqb m) (creating s) k m' E) as R.
      rewrite (String.eqb_sym m m') in R.
      unfold after_create. destruct (create_outcome o) as [reason | sid]; simpl;
        rewrite !count_app; unfold count at 2 5; simpl;
        destruct (m' =? m); simpl; lia.
    + simpl. rewrite E. exact inv.
  - rewrite step_stream_event. simpl. rewrite !count_app.
    destruct (event_counts_no_submission m data (clock (world s)) (ticks (world s)))
      as [-> ->]. lia.
  - destruct (step_stop_click s) as [-> ->]. rewrite stop_click_runs.
    destruct (truthy _ && _); [|exact inv].
    rewrite trace_appended, !count_app. unfold count at 2 5. simpl. lia.
  - destruct (stopping s) as [|n] eqn:E.
    + simpl. rewrite E. exact inv.
    + rewrite (step_stop_settles s o n E). simpl. unfold after_stop.
      destruct (request_failure o) as [reason|]; simpl.
      * rewrite trace_appended, !count_app. unfold count at 2 5. simpl. lia.
      * rewrite !count_app. unfold count at 2 5. simpl. lia.
Qed.

(** X15.  In every state the controller reaches from its construction, for
    every prompt [m]: the number of [addUserMessage(m)] calls made so far
    plus the number of create-session requests for [m] still in flight is
    at most the number of create-session requests issued for [m].  The chat
    history never shows a user message that was not sent, nor more often
    than it was sent. *)
Theorem user_messages_never_exceed_requests
    (m : string) (page : Dom) (now : nat -> Z) (inputs : list Input) :
  let s := run inputs (initial_sys page now) in
  count (is_user_message_for m) (trace (world s)) + count (String.eqb m) (creating s)
  <= count (is_create_request_for m) (trace (world s)).
Proof.
  intros s. subst s.
  change (user_messages_accounted m (run inputs (initial_sys page now))).
  assert (init : user_messages_accounted m (initial_sys page now))
    by (unfold user_messages_accounted, count; simpl; lia).
  revert init. generalize (initial_sys page now).
  induction inputs as [|i rest IH]; intros s inv; simpl; [exact inv|].
  apply IH, step_keeps_accounted, inv.
Qed.

(** *** The workspace and file handlers *)

Ltac run_files :=
  unfold Files.effects, loadWorkspaceFiles, handleFileClick, Files.try_catch,
    Files.bind, Files.when, Files.await_fetch, Files.await_json, get_property,
    Files.emit, Files.throw, Files.ret, api_error;
  simpl.

(** X16.  [loadWorkspaceFiles] whose request resolves with a success
    status and a JSON object issues one GET of /api/files and hands
    [data.workspaces], as it came, to [updateWorkspaces] in one call
    (undefined when the object has no such property); nothing is logged and
    no other collaborator is called. *)
Theorem workspace_listing_forwarded_verbatim
    (response : Response.t) (fields : list (string * JsVal)) :
  Response.ok response = true ->
  Response.json response = JsonValue (JObj fields) ->
  Files.effects (loadWorkspaceFiles (FetchResolves response))
  = [inr (FetchUrl "/api/files");
     inr (UpdateWorkspaces (lookup "workspaces" fields))].
Proof. intros Hok Hjson. run_files. rewrite Hok. simpl. rewrite Hjson. reflexivity. Qed.

(** X17.  [loadWorkspaceFiles] never calls the chat history, the thinking
    timeline, the streaming channel or the file viewer, whatever the request
    answers; and when the request fails (the fetch rejects, or the status is
    not a success) all it does after issuing the request is write one line
    to the error console: the workspace collaborator is not called. *)
Theorem workspace_refresh_failure_is_silent (o : FetchOutcome) :
  filter is_file_fetch (Files.effects (loadWorkspaceFiles o))
  = [inr (FetchUrl "/api/files")]
  /\ (forall e, In e (Files.effects (loadWorkspaceFiles o)) ->
                 is_manager_call e = true -> is_workspace_call e = true)
  /\ (forall reason, request_failure o = Some reason ->
       Files.effects (loadWorkspaceFiles o)
       = [inr (FetchUrl "/api/files");
          inl (ConsoleError [JStr (t "load_workspace_error" [("message", JStr reason)]);
                             error_object reason])]).
Proof.
  destruct o as [m | [ok st [m | data]]]; [| destruct ok ..]; try destruct data;
    run_files;
    (split; [reflexivity|]);
    (split; [intros e H; repeat (destruct H as [<- | H]; [intros E; simpl in E; try discriminate E; reflexivity|]); destruct H
            | intros reason [= <-]; reflexivity]).
Qed.

(** X18.  [handleFileClick] whose request resolves with a success status
    and a JSON object issues one GET of the escaped path and hands
    [data.name] and [data.content] to [showFile] in one call; the chat
    history is not called. *)
Theorem file_content_shown
    (filePath : string) (response : Response.t) (fields : list (string * JsVal)) :
  Response.ok response = true ->
  Response.json response = JsonValue (JObj fields) ->
  Files.effects (handleFileClick filePath (FetchResolves response))
  = [inr (FetchUrl (file_url filePath));
     inr (ShowFile (lookup "name" fields) (lookup "content" fields))].
Proof. intros Hok Hjson. run_files. rewrite Hok. simpl. rewrite Hjson. reflexivity. Qed.

(** X19.  [handleFileClick] whose request fails (the fetch rejects, or the
    status is not a success) does not call the file viewer; it writes one
    line to the error console and reports the failure to the chat history
    as one system message built from the failure reason. *)
Theorem file_failure_reported_to_chat
    (filePath : string) (o : FetchOutcome) (reason : string) :
  request_failure o = Some reason ->
  Files.effects (handleFileClick filePath o)
  = [inr (FetchUrl (file_url filePath));
     inl (ConsoleError [JStr (t "load_file_error" [("message", JStr reason)]);
                        error_object reason]);
     inl (AddSystemMessage (t "error_occurred" [("message", JStr reason)]))].
Proof.
  destruct o as [m | [ok st body]]; [| destruct ok]; simpl; intros [= <-];
    run_files; reflexivity.
Qed.

(** *** encodeURIComponent and the URL of a file *)

Lemma hex_digit_unreserved (b0 b1 b2 b3 : bool) :
  uri_unreserved (hex_digit b0 b1 b2 b3) = true.
Proof. destruct b0, b1, b2, b3; reflexivity. Qed.

Lemma hex_digit_injective (a0 a1 a2 a3 b0 b1 b2 b3 : bool) :
  hex_digit a0 a1 a2 a3 = hex_digit b0 b1 b2 b3 ->
  a0 = b0 /\ a1 = b1 /\ a2 = b2 /\ a3 = b3.
Proof.
  destruct a0, a1, a2, a3, b0, b1, b2, b3; simpl; intros H;
    first [discriminate H | repeat split].
Qed.

Lemma escaped_chars (path : string) (c : ascii) :
  In c (list_ascii_of_string (encodeURIComponent path)) ->
  uri_component_char c = true.
Proof.
  induction path as [|a rest IH]; simpl; [intros []|].
  destruct (uri_unreserved a) eqn:E.
  - simpl. intros [<- | H]; [|exact (IH H)].
    unfold uri_component_char. rewrite E. reflexivity.
  - destruct a as [b0 b1 b2 b3 b4 b5 b6 b7]. simpl.
    intros [<- | [<- | [<- | H]]]; [reflexivity | | | exact (IH H)];
      unfold uri_component_char; rewrite hex_digit_unreserved; reflexivity.
Qed.

(** X20.  The escaped path is made of unreserved characters and [%] only:
    it contains no slash, question mark, hash, ampersand or space, so in the
    URL of line 253 the whole file path, directories included, is one path
    segment after /api/files/. *)
Theorem escaped_path_is_one_segment (filePath : string) (c : ascii) :
  In c (list_ascii_of_string (encodeURIComponent filePath)) ->
  uri_component_char c = true
  /\ c <> "/"%char /\ c <> "?"%char /\ c <> "#"%char /\ c <> "&"%char /\ c <> " "%char.
Proof.
  intros H. pose proof (escaped_chars filePath c H) as E.
  split; [exact E|]. repeat split; intros ->; discriminate E.
Qed.

Lemma encode_nonempty (a : ascii) (rest : string) :
  encodeURIComponent (String a rest) <> EmptyString.
Proof.
  simpl. destruct (uri_unreserved a); [discriminate|].
  destruct a. discriminate.
Qed.

Lemma encodeURIComponent_injective (p q : string) :
  encodeURIComponent p = encodeURIComponent q -> p = q.
Proof.
  revert q. induction p as [|a p IH]; intros [|b q] H.
  - reflexivity.
  - symmetry in H. destruct (encode_nonempty b q H).
  - destruct (encode_nonempty a p H).
  - simpl in H.
    destruct (uri_unreserved a) eqn:Ea, (uri_unreserved b) eqn:Eb.
    + injection H as -> H. f_equal. apply IH, H.
    + destruct b as [b0 b1 b2 b3 b4 b5 b6 b7]. simpl in H.
      injection H as -> _. discriminate Ea.
    + destruct a as [a0 a1 a2 a3 a4 a5 a6 a7]. simpl in H.
      injection H as <- _. discriminate Eb.
    + destruct a as [a0 a1 a2 a3 a4 a5 a6 a7], b as [b0 b1 b2 b3 b4 b5 b6 b7].
      simpl in H. injection H as Hhi Hlo H.
      destruct (hex_digit_injective _ _ _ _ _ _ _ _ Hhi) as (-> & -> & -> & ->).
      destruct (hex_digit_injective _ _ _ _ _ _ _ _ Hlo) as (-> & -> & -> & ->).
      f_equal. apply IH, H.
Qed.

(** X21.  Escaping loses nothing: two file paths that are requested with
    the same URL are the same path. *)
Theorem file_url_injective (p q : string) :
  file_url p = file_url q -> p = q.
Proof.
  unfold file_url. simpl. intros H. injection H as H.
  apply encodeURIComponent_injective, H.
Qed.

(** X22.  A path made of unreserved characters only (letters, digits and
    [-_.!~*'()], as in "notes-v2.txt") is requested as it is. *)
Theorem unreserved_path_sent_unchanged (filePath : string) :
  forallb uri_unreserved (list_ascii_of_string filePath) = true ->
  file_url filePath = String.append "/api/files/" filePath.
Proof.
  intros H. unfold file_url. f_equal.
  induction filePath as [|a rest IH]; simpl in *; [reflexivity|].
  apply andb_true_iff in H. destruct H as [Ha Hrest].
  rewrite Ha, (IH Hrest). reflexivity.
Qed.

(** *** updateDynamicTexts *)

Lemma leading_digits_of_run (d post : string) :
  all_digits d = true ->
  starts_with_digit post = false ->
  leading_digits (String.append d post) = d.
Proof.
  intros Hd Hpost. induction d as [|c d IH]; simpl.
  - destruct post as [|c post]; [reflexivity|]. simpl in *. rewrite Hpost. reflexivity.
  - unfold all_digits in Hd. simpl in Hd. apply andb_true_iff in Hd.
    destruct Hd as [Hc Hd]. rewrite Hc, (IH Hd). reflexivity.
Qed.

Lemma match_digits_leftmost_longest (pre d post : string) :
  no_digits pre = true ->
  d <> EmptyString ->
  all_digits d = true ->
  starts_with_digit post = false ->
  match_digits (String.append pre (String.append d post)) = Some d.
Proof.
  intros Hpre Hne Hd Hpost. induction pre as [|a pre IH]; simpl.
  - destruct d as [|c d]; [contradiction|]. simpl.
    unfold all_digits in Hd. simpl in Hd. apply andb_true_iff in Hd.
    destruct Hd as [Hc Hd]. rewrite Hc.
    rewrite (leading_digits_of_run d post Hd Hpost). reflexivity.
  - unfold no_digits in Hpre. simpl in Hpre. apply andb_true_iff in Hpre.
    destruct Hpre as [Ha Hpre]. apply negb_true_iff in Ha. rewrite Ha.
    apply IH, Hpre.
Qed.

Lemma match_digits_none (s : string) :
  no_digits s = true -> match_digits s = None.
Proof.
  induction s as [|a s IH]; simpl; [reflexivity|].
  unfold no_digits. simpl. intros H. apply andb_true_iff in H.
  destruct H as [Ha Hs]. apply negb_true_iff in Ha. rewrite Ha. apply IH, Hs.
Qed.

(** X23.  [updateDynamicTexts] leaves alone what it does not recognise: on
    a page whose status indicator contains neither of the phrases
    "正在处理" and "处理已停止" (an emptied indicator, or a label in another
    language), whose record counter does not parse as a number and whose
    countdown holds no digit, it changes nothing. *)
Theorem unrecognised_texts_are_left_alone (p : Page) :
  includes (status_indicator_text (controls p)) "正在处理" = false ->
  includes (status_indicator_text (controls p)) "处理已停止" = false ->
  parseInt (record_count_text p) = None ->
  no_digits (refresh_countdown_text p) = true ->
  updateDynamicTexts p = p.
Proof.
  intros H1 H2 H3 H4. unfold updateDynamicTexts.
  rewrite H1, H2, H3, (match_digits_none _ H4).
  destruct p as [[send stop text] count countdown]. reflexivity.
Qed.

(** X24.  When the countdown text holds a number, [updateDynamicTexts]
    rebuilds it from the leftmost run of digits taken as long as it goes:
    for a text [pre ++ d ++ post] with no digit in [pre], [d] a non-empty
    run of digits and [post] not starting with a digit, the new text is the
    localised "refresh_countdown" for [seconds = d]; the buttons are not
    touched. *)
Theorem countdown_rebuilt_from_first_number (p : Page) (pre d post : string) :
  refresh_countdown_text p = String.append pre (String.append d post) ->
  no_digits pre = true ->
  d <> EmptyString ->
  all_digits d = true ->
  starts_with_digit post = false ->
  refresh_countdown_text (updateDynamicTexts p)
  = t "refresh_countdown" [("seconds", JStr d)]
  /\ send_btn_disabled (controls (updateDynamicTexts p)) = send_btn_disabled (controls p)
  /\ stop_btn_disabled (controls (updateDynamicTexts p)) = stop_btn_disabled (controls p).
Proof.
  intros Htext Hpre Hne Hd Hpost. unfold updateDynamicTexts. simpl.
  rewrite Htext, (match_digits_leftmost_longest pre d post Hpre Hne Hd Hpost).
  repeat split.
Qed.

(** *** A submission whose request succeeds, under interleaving *)

Lemma stop_succeeds_no_failure (o : FetchOutcome) :
  stop_succeeds o = false -> exists reason, request_failure o = Some reason.
Proof.
  destruct o as [m | response]; simpl; intros H; [eexists; reflexivity|].
  rewrite H. eexists; reflexivity.
Qed.

Lemma step_keeps_processing (s : Sys) (i : Input) :
  keeps_processing i = true ->
  isProcessing (app (world s)) = true ->
  isProcessing (app (world (step s i))) = true.
Proof.
  intros H busy. destruct i as [m | k o | data | | o].
  - rewrite step_submit_busy by exact busy. destruct (world s); exact busy.
  - destruct (nth_error (creating s) k) as [m|] eqn:E.
    + rewrite (step_create_settles s k o m E). simpl. unfold after_create.
      simpl in H. rewrite returned_session_id_create in H.
      destruct (create_outcome o); [discriminate H | exact busy].
    + simpl. rewrite E. exact busy.
  - rewrite step_stream_event. simpl. simpl in H. apply negb_true_iff in H.
    rewrite H. exact busy.
  - rewrite (proj1 (step_stop_click s)), stop_click_runs.
    destruct (truthy _ && _); [|exact busy]. destruct (world s); exact busy.
  - destruct (stopping s) as [|n] eqn:E.
    + simpl. rewrite E. exact busy.
    + rewrite (step_stop_settles s o n E). simpl. unfold after_stop.
      simpl in H. apply negb_true_iff in H.
      destruct (stop_succeeds_no_failure o H) as [reason ->].
      destruct (world s); exact busy.
Qed.

Lemma run_keeps_processing (inputs : list Input) (s : Sys) :
  forallb keeps_processing inputs = true ->
  isProcessing (app (world s)) = true ->
  isProcessing (app (world (run inputs s))) = true.
Proof.
  revert s. induction inputs as [|i rest IH]; intros s H busy; simpl; [exact busy|].
  simpl in H. apply andb_true_iff in H. destruct H as [Hi Hrest].
  apply IH; [exact Hrest|]. apply step_keeps_processing; assumption.
Qed.

(** C3, amended.  A submission made while idle issues one create-session
    request for the prompt and sets [isProcessing].  When that request
    settles with a success status and a JSON object carrying [session_id],
    whatever handlers were dispatched in between: [sessionId] becomes the
    returned identifier and the collaborator calls of the continuation are,
    in this order, [addUserMessage(message)] with the raw text, [connect]
    for that identifier, [clearThinking()].  The continuation does not
    write [isProcessing]: it is true afterwards exactly if it still was
    when the request settled, and it still is whenever no terminal stream
    event, no successful stop request and no failed create-session request
    was dispatched in between. *)
Theorem successful_submit_stores_session
    (s : Sys) (message : string) (between : list Input) (k : nat)
    (response : Response.t) (fields : list (string * JsVal)) (sid : JsVal) :
  isProcessing (app (world s)) = false ->
  Response.ok response = true ->
  Response.json response = JsonValue (JObj fields) ->
  lookup "session_id" fields = sid ->
  let s1 := step s (Submit message) in
  let s2 := run between s1 in
  nth_error (creating s2) k = Some message ->
  let s3 := step s2 (CreateSettles k (FetchResolves response)) in
  filter is_fetch (new_effects (world s) (world s1)) = [Fetch (PostChat message)]
  /\ isProcessing (app (world s1)) = true
  /\ sessionId (app (world s3)) = sid
  /\ filter is_collaborator_call (new_effects (world s2) (world s3))
     = [AddUserMessage message; Connect sid; ClearThinking]
  /\ isProcessing (app (world s3)) = isProcessing (app (world s2))
  /\ (forallb keeps_processing between = true ->
      isProcessing (app (world s3)) = true).
Proof.
  intros idle Hok Hjson Hsid s1 s2 Hflight s3.
  assert (E1 : s1 = {| world := after_submit_enter message (world s);
                       creating := creating s ++ [message];
                       stopping := stopping s |})
    by (apply step_submit_idle; exact idle).
  assert (E3 : s3 = {| world := after_create_success message sid (world s2);
                       creating := remove_nth k (creating s2);
                       stopping := stopping s2 |}).
  { subst s3. rewrite (step_create_settles s2 k _ message Hflight).
    unfold after_create, create_outcome. rewrite Hok, Hjson, Hsid. reflexivity. }
  assert (busy1 : isProcessing (app (world s1)) = true) by (rewrite E1; reflexivity).
  assert (same : isProcessing (app (world s3)) = isProcessing (app (world s2)))
    by (rewrite E3; reflexivity).
  split.
  { rewrite E1. simpl.
    rewrite (new_effects_app (world s) (after_submit_enter message (world s))
               [SetIsProcessing true; SetDisabled send_btn true;
                SetDisabled stop_btn false;
                SetStatusText (t "processing_request" []);
                Fetch (PostChat message)]) by reflexivity.
    reflexivity. }
  split; [exact busy1|].
  split; [rewrite E3; reflexivity|].
  split.
  { rewrite E3. simpl.
    rewrite (new_effects_app (world s2) (after_create_success message sid (world s2))
               [SetSessionId sid; AddUserMessage message; Connect sid; ClearThinking])
      by reflexivity.
    reflexivity. }
  split; [exact same|].
  intros quiet. rewrite same. subst s2.
  apply run_keeps_processing; assumption.
Qed.

(** X11.  A create-session response with a success status whose JSON
    object has no [session_id] is not rejected.  Whenever its continuation
    runs, [sessionId] becomes undefined, the user message is added, the
    streaming channel is opened for undefined and the timeline is cleared;
    [isProcessing] is left as the continuation finds it (so a controller
    that was processing stays so), and in the state it leaves a click on
    the stop button does nothing. *)
Theorem response_without_session_id_is_accepted
    (message : string) (response : Response.t)
    (fields : list (string * JsVal)) (w : World) :
  Response.ok response = true ->
  Response.json response = JsonValue (JObj fields) ->
  lookup "session_id" fields = JUndefined ->
  let w' := exec (handleSendMessage_resume message (FetchResolves response)) w in
  sessionId (app w') = JUndefined
  /\ isProcessing (app w') = isProcessing (app w)
  /\ filter is_collaborator_call (new_effects w w')
     = [AddUserMessage message; Connect JUndefined; ClearThinking]
  /\ stop_click_enter w' = (Normal false, w').
Proof.
  intros Hok Hjson Hsid w'. subst w'. unfold exec.
  rewrite handleSendMessage_resume_runs. cbn [snd].
  unfold after_create, create_outcome. rewrite Hok, Hjson, Hsid.
  rewrite (new_effects_app w (after_create_success message JUndefined w)
             [SetSessionId JUndefined; AddUserMessage message;
              Connect JUndefined; ClearThinking]) by reflexivity.
  simpl. repeat split.
Qed.

End Controller.

(** ** Worked runs *)

(** Scenario D of the specification: [{system_logs: ["a", "b"]}] gives one
    [addThinkingSteps] call with two steps, "a" then "b". *)
Example two_log_lines_one_call :
  filter is_thinking_call
    (new_effects fresh_world
       (exec (handleWebSocketMessage (event_logs None ["a"; "b"])) fresh_world))
  = [AddThinkingSteps [log_step "a" 0; log_step "b" 1000]].
Proof. reflexivity. Qed.

(** Scenario B: a create-session response with status 500. *)
Example status_500_reported :
  filter is_chat_call
    (new_effects fresh_world
       (exec (handleSendMessage sample_t sample_type_error "hello" server_error)
             fresh_world))
  = [AddSystemMessage (sample_t "error_occurred" [("message", JStr "api_error")])].
Proof. reflexivity. Qed.

(** Scenario E: [stopProcessing] without a session issues nothing. *)
Example cancel_without_session :
  exec (stopProcessing sample_t server_error) fresh_world = fresh_world.
Proof. reflexivity. Qed.

(** A stop request that succeeds while a second create-session request is
    in flight: the second session is stored with the controller idle. *)
Example cancel_racing_submit :
  let s := run sample_t sample_type_error
               [Submit "first"; CreateSettles 0 (created "s1");
                StreamEvent (event_status_result "completed" (JStr "done"));
                Submit "second"; StopClick;
                StopSettles (FetchResolves (Response.mk true 200 (JsonValue JNull)));
                CreateSettles 0 (created "s2")]
               (initial_sys sample_page ticking_clock) in
  sessionId (app (world s)) = JStr "s2" /\ isProcessing (app (world s)) = false.
Proof. split; reflexivity. Qed.

(** C1 fails as stated: right after the first submission, before the
    create-session request has settled, [isProcessing] is true and
    [sessionId] is still null. *)
Lemma active_with_null_session_after_submit :
  ~ (isProcessing
       (app (world (run sample_t sample_type_error [Submit "hello"]
                        (initial_sys sample_page ticking_clock)))) = true ->
     sessionId
       (app (world (run sample_t sample_type_error [Submit "hello"]
                        (initial_sys sample_page ticking_clock)))) <> JNull).
Proof. intros H. apply H; reflexivity. Qed.

Lemma active_implies_session_or_request_in_flight_witness :
  forallb well_formed_input [Submit "hello"; CreateSettles 0 (created "s1")] = true
  /\ isProcessing
       (app (world (run sample_t sample_type_error
                        [Submit "hello"; CreateSettles 0 (created "s1")]
                        (initial_sys sample_page ticking_clock)))) = true
  /\ (nullish
        (sessionId
           (app (world (run sample_t sample_type_error
                            [Submit "hello"; CreateSettles 0 (created "s1")]
                            (initial_sys sample_page ticking_clock))))) = false
      \/ creating (run sample_t sample_type_error
                       [Submit "hello"; CreateSettles 0 (created "s1")]
                       (initial_sys sample_page ticking_clock)) <> []).
Proof.
  split; [reflexivity|]. split; [reflexivity|].
  apply (active_implies_session_or_request_in_flight
           sample_t sample_type_error sample_page ticking_clock
           [Submit "hello"; CreateSettles 0 (created "s1")]); reflexivity.
Defined.

Lemma submit_while_active_is_ignored_witness :
  isProcessing (app active_world) = true
  /\ app (exec (handleSendMessage sample_t sample_type_error "again" (created "s2"))
               active_world) = app active_world
  /\ filter is_fetch
       (new_effects active_world
          (exec (handleSendMessage sample_t sample_type_error "again" (created "s2"))
                active_world)) = [].
Proof.
  split; [reflexivity|].
  destruct (submit_while_active_is_ignored sample_t sample_type_error
              "again" (created "s2") active_world eq_refl)
    as (_ & Happ & _ & _ & Hfetch & _).
  split; assumption.
Defined.


Lemma failed_submit_returns_to_idle_witness :
  isProcessing (app fresh_world) = false
  /\ request_failure sample_t server_error = Some "api_error"
  /\ isProcessing
       (app (exec (handleSendMessage sample_t sample_type_error "hello" server_error)
                  fresh_world)) = false
  /\ filter is_system_message
       (new_effects fresh_world
          (exec (handleSendMessage sample_t sample_type_error "hello" server_error)
                fresh_world))
     = [AddSystemMessage (sample_t "error_occurred" [("message", JStr "api_error")])].
Proof.
  split; [reflexivity|]. split; [reflexivity|].
  destruct (failed_submit_returns_to_idle sample_t sample_type_error "hello"
              server_error "api_error" fresh_world eq_refl eq_refl)
    as (Hidle & _ & _ & _ & _ & Hmsg).
  split; assumption.
Defined.

Lemma terminal_status_returns_to_idle_witness :
  status (event_status_result "stopped" JNull) = Some "stopped"
  /\ ("stopped" = "completed" \/ "stopped" = "error" \/ "stopped" = "stopped")
  /\ isProcessing
       (app (exec (handleWebSocketMessage (event_status_result "stopped" JNull))
                  active_world)) = false
  /\ filter is_processing_write
       (new_effects active_world
          (exec (handleWebSocketMessage (event_status_result "stopped" JNull))
                active_world))
     = [SetIsProcessing false].
Proof.
  split; [reflexivity|]. split; [right; right; reflexivity|].
  destruct (terminal_status_returns_to_idle
              (event_status_result "stopped" JNull) "stopped" active_world
              eq_refl (or_intror (or_intror eq_refl)))
    as (Hidle & _ & _ & _ & Hwrites).
  split; assumption.
Defined.

(** C6 fails as stated: a completed event whose result is present but is the
    empty string is not forwarded to the chat history. *)
Lemma completed_empty_result_not_forwarded :
  ~ (status (event_status_result "completed" (JStr "")) = Some "completed" ->
     result (event_status_result "completed" (JStr "")) = Some (JStr "") ->
     filter is_ai_message
       (new_effects active_world
          (exec (handleWebSocketMessage (event_status_result "completed" (JStr "")))
                active_world))
     = [AddAIMessage (JStr "")]).
Proof.
  intros H. specialize (H eq_refl eq_refl). vm_compute in H. discriminate H.
Qed.

(** Scenario C: [{status: "completed", result: "done"}]. *)
Lemma completed_result_forwarded_when_truthy_witness :
  status (event_status_result "completed" (JStr "done")) = Some "completed"
  /\ result (event_status_result "completed" (JStr "done")) = Some (JStr "done")
  /\ truthy (JStr "done") = true
  /\ filter is_ai_message
       (new_effects active_world
          (exec (handleWebSocketMessage (event_status_result "completed" (JStr "done")))
                active_world))
     = [AddAIMessage (JStr "done")].
Proof.
  repeat (split; [reflexivity|]).
  apply (completed_result_forwarded_when_truthy
           (event_status_result "completed" (JStr "done")) (JStr "done") active_world);
    reflexivity.
Defined.

Lemma system_logs_forwarded_in_one_call_witness :
  system_logs (event_logs (Some [JObj [("message", JStr "plan")]]) ["a"; "b"])
  = Some ["a"; "b"]
  /\ ["a"; "b"] <> []
  /\ exists steps : list JsVal,
       filter is_thinking_call
         (new_effects active_world
            (exec (handleWebSocketMessage
                     (event_logs (Some [JObj [("message", JStr "plan")]]) ["a"; "b"]))
                  active_world))
       = [AddThinkingSteps [JObj [("message", JStr "plan")]]]
         ++ [AddThinkingSteps steps]
       /\ Forall2 (fun log step =>
                     field "message" step = JStr log
                     /\ field "type" step = JStr "system_log"
                     /\ field "details" step = JNull)
                  ["a"; "b"] steps.
Proof.
  split; [reflexivity|]. split; [discriminate|].
  apply (system_logs_forwarded_in_one_call
           (event_logs (Some [JObj [("message", JStr "plan")]]) ["a"; "b"])
           ["a"; "b"] active_world); [reflexivity | discriminate].
Defined.

Lemma failed_cancel_changes_no_state_witness :
  truthy (sessionId (app active_world)) = true
  /\ request_failure sample_t server_error = Some "api_error"
  /\ app (exec (stopProcessing sample_t server_error) active_world) = app active_world
  /\ dom (exec (stopProcessing sample_t server_error) active_world) = dom active_world
  /\ filter is_collaborator_call
       (new_effects active_world (exec (stopProcessing sample_t server_error) active_world))
     = [AddSystemMessage (sample_t "error_occurred" [("message", JStr "api_error")])].
Proof.
  split; [reflexivity|]. split; [reflexivity|].
  destruct (failed_cancel_changes_no_state sample_t server_error "api_error"
              active_world eq_refl eq_refl)
    as (Happ & Hdom & Hcalls & _).
  repeat split; assumption.
Defined.

(** C9 fails as stated: with a clock that advances between the two
    dispatches, the steps made from the log line "a" differ in their
    timestamp, so the second thinking-timeline call is not identical to the
    first. *)
Lemma redispatch_differs_in_timestamp :
  filter is_collaborator_call
    (new_effects
       (exec (handleWebSocketMessage (event_logs None ["a"])) fresh_world)
       (exec (handleWebSocketMessage (event_logs None ["a"]))
             (exec (handleWebSocketMessage (event_logs None ["a"])) fresh_world)))
  <> filter is_collaborator_call
       (new_effects fresh_world
          (exec (handleWebSocketMessage (event_logs None ["a"])) fresh_world)).
Proof. vm_compute. intros H. discriminate H. Qed.

Lemma redispatch_same_calls_up_to_timestamp_witness :
  (forall i : nat,
      (i < length (elements (system_logs (event_logs None ["a"; "b"]))))%nat ->
      clock (initial_world sample_page frozen_clock)
            (ticks (exec (handleWebSocketMessage (event_logs None ["a"; "b"]))
                         (initial_world sample_page frozen_clock)) + i)%nat
      = clock (initial_world sample_page frozen_clock)
              (ticks (initial_world sample_page frozen_clock) + i)%nat)
  /\ filter is_collaborator_call
       (new_effects
          (exec (handleWebSocketMessage (event_logs None ["a"; "b"]))
                (initial_world sample_page frozen_clock))
          (exec (handleWebSocketMessage (event_logs None ["a"; "b"]))
                (exec (handleWebSocketMessage (event_logs None ["a"; "b"]))
                      (initial_world sample_page frozen_clock))))
     = filter is_collaborator_call
         (new_effects (initial_world sample_page frozen_clock)
            (exec (handleWebSocketMessage (event_logs None ["a"; "b"]))
                  (initial_world sample_page frozen_clock))).
Proof.
  split; [intros; reflexivity|].
  apply (proj2 (redispatch_same_calls_up_to_timestamp
                  (event_logs None ["a"; "b"])
                  (initial_world sample_page frozen_clock))).
  intros; reflexivity.
Defined.

(** C10 fails as stated: an error event whose result is present but is the
    empty string is not forwarded to the chat history. *)
Lemma error_empty_result_not_forwarded :
  ~ (status (event_status_result "error" (JStr "")) = Some "error" ->
     "error" = "error" \/ "error" = "stopped" ->
     result (event_status_result "error" (JStr "")) = Some (JStr "") ->
     filter is_ai_message
       (new_effects active_world
          (exec (handleWebSocketMessage (event_status_result "error" (JStr "")))
                active_world))
     = [AddAIMessage (JStr "")]).
Proof.
  intros H. specialize (H eq_refl (or_introl eq_refl) eq_refl).
  vm_compute in H. discriminate H.
Qed.

Lemma error_or_stopped_result_forwarded_when_truthy_witness :
  status (event_status_result "error" (JStr "tool failed")) = Some "error"
  /\ ("error" = "error" \/ "error" = "stopped")
  /\ result (event_status_result "error" (JStr "tool failed")) = Some (JStr "tool failed")
  /\ truthy (JStr "tool failed") = true
  /\ filter is_ai_message
       (new_effects active_world
          (exec (handleWebSocketMessage (event_status_result "error" (JStr "tool failed")))
                active_world))
     = [AddAIMessage (JStr "tool failed")].
Proof.
  split; [reflexivity|]. split; [left; reflexivity|].
  split; [reflexivity|]. split; [reflexivity|].
  apply (error_or_stopped_result_forwarded_when_truthy
           (event_status_result "error" (JStr "tool failed")) "error"
           (JStr "tool failed") active_world);
    [reflexivity | left; reflexivity | reflexivity | reflexivity].
Defined.

(** ** Switching the language while a request is being processed *)

(** X25.  When the label that [handleSendMessage] wrote to the status
    indicator contains "正在处理" (as in the Chinese locale), a later
    [updateDynamicTexts] under any other localisation replaces it by the
    "processing_request" text of that localisation, and leaves the buttons
    as the submission set them. *)
Theorem chinese_processing_label_follows_language
    (t_old t_new : string -> list (string * JsVal) -> string)
    (parseInt : string -> option JsVal)
    (message count countdown : string) (w : World) :
  isProcessing (app w) = false ->
  includes (t_old "processing_request" []) "正在处理" = true ->
  let w' := snd (handleSendMessage_enter t_old message w) in
  let p' := updateDynamicTexts t_new parseInt
              {| controls := dom w'; record_count_text := count;
                 refresh_countdown_text := countdown |} in
  status_indicator_text (controls p') = t_new "processing_request" []
  /\ send_btn_disabled (controls p') = true
  /\ stop_btn_disabled (controls p') = false.
Proof.
  intros idle H w' p'. subst p' w'.
  rewrite (handleSendMessage_enter_idle t_old message w idle).
  unfold updateDynamicTexts. simpl. rewrite H. repeat split.
Qed.

(** X26.  When that label contains neither "正在处理" nor "处理已停止" (as
    in any locale whose texts are not Chinese), [updateDynamicTexts] under a
    new localisation leaves it as it is: the status indicator keeps the text
    of the language the request was submitted in. *)
Theorem other_processing_label_stays_stale
    (t_old t_new : string -> list (string * JsVal) -> string)
    (parseInt : string -> option JsVal)
    (message count countdown : string) (w : World) :
  isProcessing (app w) = false ->
  includes (t_old "processing_request" []) "正在处理" = false ->
  includes (t_old "processing_request" []) "处理已停止" = false ->
  let w' := snd (handleSendMessage_enter t_old message w) in
  let p' := updateDynamicTexts t_new parseInt
              {| controls := dom w'; record_count_text := count;
                 refresh_countdown_text := countdown |} in
  status_indicator_text (controls p') = t_old "processing_request" [].
Proof.
  intros idle H1 H2 w' p'. subst p' w'.
  rewrite (handleSendMessage_enter_idle t_old message w idle).
  unfold updateDynamicTexts. simpl. rewrite H1, H2. reflexivity.
Qed.

(** ** Worked runs of the further properties *)

Lemma non_terminal_event_changes_no_state_witness :
  (forall s, status progress_event = Some s ->
             s <> "completed" /\ s <> "error" /\ s <> "stopped")
  /\ app (exec (handleWebSocketMessage progress_event) active_world) = app active_world
  /\ filter is_chat_call
       (new_effects active_world (exec (handleWebSocketMessage progress_event) active_world))
     = [].
Proof.
  assert (H : forall s, status progress_event = Some s ->
                        s <> "completed" /\ s <> "error" /\ s <> "stopped")
    by (intros s [= <-]; repeat split; discriminate).
  split; [exact H|].
  destruct (non_terminal_event_changes_no_state progress_event active_world H)
    as (Happ & _ & _ & Hchat & _).
  split; assumption.
Defined.

Lemma empty_event_is_ignored_witness :
  (forall s, status heartbeat = Some s ->
             s <> "completed" /\ s <> "error" /\ s <> "stopped")
  /\ elements (thinking_steps heartbeat) = []
  /\ elements (terminal_output heartbeat) = []
  /\ elements (system_logs heartbeat) = []
  /\ elements (chat_logs heartbeat) = []
  /\ exec (handleWebSocketMessage heartbeat) active_world = active_world.
Proof.
  assert (H : forall s, status heartbeat = Some s ->
                        s <> "completed" /\ s <> "error" /\ s <> "stopped")
    by (intros s [= <-]; repeat split; discriminate).
  split; [exact H|]. repeat (split; [reflexivity|]).
  apply (empty_event_is_ignored heartbeat active_world H); reflexivity.
Defined.

Lemma cancel_without_session_does_nothing_witness :
  truthy (sessionId (app fresh_world)) = false
  /\ exec (stopProcessing sample_t (created "s1")) fresh_world = fresh_world.
Proof.
  split; [reflexivity|].
  apply (cancel_without_session_does_nothing sample_t (created "s1") fresh_world).
  reflexivity.
Defined.

Lemma successful_cancel_returns_to_idle_witness :
  truthy (sessionId (app active_world)) = true
  /\ Response.ok (Response.mk true 200 (JsonValue JNull)) = true
  /\ isProcessing
       (app (exec (stopProcessing sample_t
                     (FetchResolves (Response.mk true 200 (JsonValue JNull))))
                  active_world)) = false
  /\ sessionId
       (app (exec (stopProcessing sample_t
                     (FetchResolves (Response.mk true 200 (JsonValue JNull))))
                  active_world)) = JStr "s1".
Proof.
  split; [reflexivity|]. split; [reflexivity|].
  destruct (successful_cancel_returns_to_idle sample_t
              (Response.mk true 200 (JsonValue JNull)) active_world eq_refl eq_refl)
    as (Hidle & Hsid & _).
  split; assumption.
Defined.

Lemma stop_click_ignored_when_idle_or_without_session_witness :
  (isProcessing (app fresh_world) = false \/ truthy (sessionId (app fresh_world)) = false)
  /\ stop_click_enter fresh_world = (Normal false, fresh_world).
Proof.
  split; [left; reflexivity|].
  apply (stop_click_ignored_when_idle_or_without_session fresh_world).
  left; reflexivity.
Defined.

Lemma create_exception_forces_idle_witness :
  create_outcome sample_t sample_type_error
    (FetchResolves (Response.mk true 200 (JsonRejects "Unexpected token <")))
  = inl "Unexpected token <"
  /\ isProcessing
       (app (exec (handleSendMessage_resume sample_t sample_type_error "hello"
                     (FetchResolves (Response.mk true 200 (JsonRejects "Unexpected token <"))))
                  active_world)) = false
  /\ sessionId
       (app (exec (handleSendMessage_resume sample_t sample_type_error "hello"
                     (FetchResolves (Response.mk true 200 (JsonRejects "Unexpected token <"))))
                  active_world)) = JStr "s1".
Proof.
  split; [reflexivity|].
  destruct (create_exception_forces_idle sample_t sample_type_error "hello"
              (FetchResolves (Response.mk true 200 (JsonRejects "Unexpected token <")))
              "Unexpected token <" active_world eq_refl)
    as (Hidle & Hsid & _).
  split; assumption.
Defined.


Lemma only_first_submit_of_burst_is_sent_witness :
  isProcessing (app (world (initial_sys sample_page ticking_clock))) = false
  /\ filter is_fetch
       (new_effects (world (initial_sys sample_page ticking_clock))
          (world (run sample_t sample_type_error
                      (map Submit ["a"; "b"; "c"])
                      (initial_sys sample_page ticking_clock))))
     = [Fetch (PostChat "a")].
Proof.
  split; [reflexivity|].
  apply (only_first_submit_of_burst_is_sent sample_t sample_type_error
           "a" ["b"; "c"] (initial_sys sample_page ticking_clock)).
  reflexivity.
Defined.

Lemma buttons_always_mirror_processing_witness :
  send_btn_disabled sample_page = false
  /\ stop_btn_disabled sample_page = true
  /\ send_btn_disabled
       (dom (world (run sample_t sample_type_error
                        [Submit "hello"; CreateSettles 0 server_error; Submit "again"]
                        (initial_sys sample_page ticking_clock))))
     = isProcessing
         (app (world (run sample_t sample_type_error
                          [Submit "hello"; CreateSettles 0 server_error; Submit "again"]
                          (initial_sys sample_page ticking_clock)))).
Proof.
  split; [reflexivity|]. split; [reflexivity|].
  apply (buttons_always_mirror_processing sample_t sample_type_error
           sample_page ticking_clock
           [Submit "hello"; CreateSettles 0 server_error; Submit "again"]);
    reflexivity.
Defined.

Lemma session_id_changes_only_on_created_session_witness :
  forallb creates_no_session
    [Submit "a"; CreateSettles 0 server_error;
     StreamEvent (event_status_result "completed" (JStr "x")); StopClick] = true
  /\ sessionId
       (app (world (run sample_t sample_type_error
                        [Submit "a"; CreateSettles 0 server_error;
                         StreamEvent (event_status_result "completed" (JStr "x"));
                         StopClick]
                        {| world := active_world; creating := []; stopping := 0 |})))
     = JStr "s1".
Proof.
  split; [reflexivity|].
  apply (session_id_changes_only_on_created_session sample_t sample_type_error
           [Submit "a"; CreateSettles 0 server_error;
            StreamEvent (event_status_result "completed" (JStr "x")); StopClick]
           {| world := active_world; creating := []; stopping := 0 |}).
  reflexivity.
Defined.

Lemma workspace_listing_forwarded_verbatim_witness :
  Response.ok (Response.mk true 200 (JsonValue (JObj [("other", JNull)]))) = true
  /\ Files.effects
       (loadWorkspaceFiles sample_t sample_type_error
          (FetchResolves (Response.mk true 200 (JsonValue (JObj [("other", JNull)])))))
     = [inr (FetchUrl "/api/files"); inr (UpdateWorkspaces JUndefined)].
Proof.
  split; [reflexivity|].
  apply (workspace_listing_forwarded_verbatim sample_t sample_type_error
           (Response.mk true 200 (JsonValue (JObj [("other", JNull)])))
           [("other", JNull)]); reflexivity.
Defined.

Lemma file_content_shown_witness :
  Response.ok (Response.mk true 200
                 (JsonValue (JObj [("name", JStr "a b.txt"); ("content", JStr "hello")])))
  = true
  /\ Files.effects (handleFileClick sample_t sample_type_error "docs/a b.txt" file_body)
     = [inr (FetchUrl "/api/files/docs%2Fa%20b.txt");
        inr (ShowFile (JStr "a b.txt") (JStr "hello"))].
Proof.
  split; [reflexivity|].
  apply (file_content_shown sample_t sample_type_error "docs/a b.txt"
           (Response.mk true 200
              (JsonValue (JObj [("name", JStr "a b.txt"); ("content", JStr "hello")])))
           [("name", JStr "a b.txt"); ("content", JStr "hello")]); reflexivity.
Defined.

Lemma file_failure_reported_to_chat_witness :
  request_failure sample_t server_error = Some "api_error"
  /\ Files.effects (handleFileClick sample_t sample_type_error "a.txt" server_error)
     = [inr (FetchUrl "/api/files/a.txt");
        inl (ConsoleError [JStr "load_file_error: api_error"; JObj [("message", JStr "api_error")]]);
        inl (AddSystemMessage "error_occurred: api_error")].
Proof.
  split; [reflexivity|].
  apply (file_failure_reported_to_chat sample_t sample_type_error "a.txt"
           server_error "api_error"); reflexivity.
Defined.

Lemma escaped_path_is_one_segment_witness :
  In "%"%char (list_ascii_of_string (encodeURIComponent "docs/a b.txt"))
  /\ uri_component_char "%" = true
  /\ "%"%char <> "/"%char.
Proof.
  assert (H : In "%"%char (list_ascii_of_string (encodeURIComponent "docs/a b.txt")))
    by (simpl; tauto).
  split; [exact H|].
  destruct (escaped_path_is_one_segment "docs/a b.txt" "%" H) as (Hc & Hslash & _).
  split; assumption.
Defined.

Lemma file_url_injective_witness :
  file_url "docs/a b.txt" = file_url "docs/a b.txt"
  /\ "docs/a b.txt" = "docs/a b.txt".
Proof.
  split; [reflexivity|].
  apply (file_url_injective "docs/a b.txt" "docs/a b.txt"). reflexivity.
Defined.

Lemma unreserved_path_sent_unchanged_witness :
  forallb uri_unreserved (list_ascii_of_string "notes-v2.txt") = true
  /\ file_url "notes-v2.txt" = "/api/files/notes-v2.txt".
Proof.
  split; [reflexivity|].
  apply (unreserved_path_sent_unchanged "notes-v2.txt"). reflexivity.
Defined.

Lemma unrecognised_texts_are_left_alone_witness :
  includes (status_indicator_text (controls english_page)) "正在处理" = false
  /\ includes (status_indicator_text (controls english_page)) "处理已停止" = false
  /\ sample_parseInt (record_count_text english_page) = None
  /\ no_digits (refresh_countdown_text english_page) = true
  /\ updateDynamicTexts chinese_t sample_parseInt english_page = english_page.
Proof.
  repeat (split; [reflexivity|]).
  apply (unrecognised_texts_are_left_alone chinese_t sample_parseInt english_page);
    reflexivity.
Defined.

Lemma countdown_rebuilt_from_first_number_witness :
  refresh_countdown_text countdown_page
  = String.append "refresh in " (String.append "15" "s")
  /\ no_digits "refresh in " = true
  /\ "15" <> EmptyString
  /\ all_digits "15" = true
  /\ starts_with_digit "s" = false
  /\ refresh_countdown_text (updateDynamicTexts sample_t sample_parseInt countdown_page)
     = sample_t "refresh_countdown" [("seconds", JStr "15")].
Proof.
  split; [reflexivity|]. split; [reflexivity|]. split; [discriminate|].
  split; [reflexivity|]. split; [reflexivity|].
  apply (countdown_rebuilt_from_first_number sample_t sample_parseInt countdown_page
           "refresh in " "15" "s");
    [reflexivity | reflexivity | discriminate | reflexivity | reflexivity].
Defined.

Lemma chinese_processing_label_follows_language_witness :
  isProcessing (app fresh_world) = false
  /\ includes (chinese_t "processing_request" []) "正在处理" = true
  /\ status_indicator_text
       (controls
          (updateDynamicTexts sample_t sample_parseInt
             {| controls := dom (snd (handleSendMessage_enter chinese_t "hello" fresh_world));
                record_count_text := "n/a"; refresh_countdown_text := "soon" |}))
     = "processing_request".
Proof.
  split; [reflexivity|]. split; [reflexivity|].
  apply (chinese_processing_label_follows_language chinese_t sample_t sample_parseInt
           "hello" "n/a" "soon" fresh_world); reflexivity.
Defined.

Lemma other_processing_label_stays_stale_witness :
  isProcessing (app fresh_world) = false
  /\ includes (sample_t "processing_request" []) "正在处理" = false
  /\ includes (sample_t "processing_request" []) "处理已停止" = false
  /\ status_indicator_text
       (controls
          (updateDynamicTexts chinese_t sample_parseInt
             {| controls := dom (snd (handleSendMessage_enter sample_t "hello" fresh_world));
                record_count_text := "n/a"; refresh_countdown_text := "soon" |}))
     = "processing_request".
Proof.
  repeat (split; [reflexivity|]).
  apply (other_processing_label_stays_stale sample_t chinese_t sample_parseInt
           "hello" "n/a" "soon" fresh_world); reflexivity.
Defined.

(** C3 fails as stated.  Session "s1" is cancelled; the next submission is
    made while idle; the "stopped" event of "s1" arrives while the new
    create-session request is outstanding; the request then succeeds with
    "s2".  The identifier is stored and the controller is idle. *)
Lemma successful_submit_can_end_idle :
  ~ (isProcessing
       (app (world (run sample_t sample_type_error
                        [Submit "first"; CreateSettles 0 (created "s1"); StopClick;
                         StopSettles (FetchResolves (Response.mk true 200 (JsonValue JNull)))]
                        (initial_sys sample_page ticking_clock)))) = false ->
     isProcessing
       (app (world (run sample_t sample_type_error
                        [Submit "second";
                         StreamEvent (event_status_result "stopped" JNull);
                         CreateSettles 0 (created "s2")]
                        (run sample_t sample_type_error
                           [Submit "first"; CreateSettles 0 (created "s1"); StopClick;
                            StopSettles (FetchResolves (Response.mk true 200 (JsonValue JNull)))]
                           (initial_sys sample_page ticking_clock))))) = true).
Proof. intros H. specialize (H eq_refl). vm_compute in H. discriminate H. Qed.

(** Scenario A: [submit("hello")], a progress event and a second, dropped
    submission arrive, then the create-session call returns "s1". *)
Lemma successful_submit_stores_session_witness :
  isProcessing (app (world (initial_sys sample_page ticking_clock))) = false
  /\ nth_error
       (creating (run sample_t sample_type_error
                      [StreamEvent progress_event; Submit "again"]
                      (step sample_t sample_type_error
                            (initial_sys sample_page ticking_clock) (Submit "hello"))))
       0 = Some "hello"
  /\ forallb keeps_processing [StreamEvent progress_event; Submit "again"] = true
  /\ sessionId
       (app (world
          (step sample_t sample_type_error
             (run sample_t sample_type_error
                  [StreamEvent progress_event; Submit "again"]
                  (step sample_t sample_type_error
                        (initial_sys sample_page ticking_clock) (Submit "hello")))
             (CreateSettles 0 (created "s1"))))) = JStr "s1"
  /\ isProcessing
       (app (world
          (step sample_t sample_type_error
             (run sample_t sample_type_error
                  [StreamEvent progress_event; Submit "again"]
                  (step sample_t sample_type_error
                        (initial_sys sample_page ticking_clock) (Submit "hello")))
             (CreateSettles 0 (created "s1"))))) = true.
Proof.
  split; [reflexivity|]. split; [reflexivity|]. split; [reflexivity|].
  destruct (successful_submit_stores_session sample_t sample_type_error
              (initial_sys sample_page ticking_clock) "hello"
              [StreamEvent progress_event; Submit "again"] 0
              (Response.mk true 200 (JsonValue (JObj [("session_id", JStr "s1")])))
              [("session_id", JStr "s1")] (JStr "s1")
              eq_refl eq_refl eq_refl eq_refl eq_refl)
    as (_ & _ & Hsid & _ & _ & Hbusy).
  split; [exact Hsid | exact (Hbusy eq_refl)].
Defined.

Lemma response_without_session_id_is_accepted_witness :
  Response.ok (Response.mk true 200 (JsonValue (JObj []))) = true
  /\ lookup "session_id" [] = JUndefined
  /\ sessionId
       (app (exec (handleSendMessage_resume sample_t sample_type_error "hello"
                     (FetchResolves (Response.mk true 200 (JsonValue (JObj [])))))
                  (snd (handleSendMessage_enter sample_t "hello" fresh_world))))
     = JUndefined
  /\ isProcessing
       (app (exec (handleSendMessage_resume sample_t sample_type_error "hello"
                     (FetchResolves (Response.mk true 200 (JsonValue (JObj [])))))
                  (snd (handleSendMessage_enter sample_t "hello" fresh_world))))
     = true.
Proof.
  split; [reflexivity|]. split; [reflexivity|].
  destruct (response_without_session_id_is_accepted
              sample_t sample_type_error "hello"
              (Response.mk true 200 (JsonValue (JObj []))) []
              (snd (handleSendMessage_enter sample_t "hello" fresh_world))
              eq_refl eq_refl eq_refl)
    as (Hsid & Hbusy & _).
  split; [exact Hsid | exact Hbusy].
Defined.
